(** Shallow embedding of the transactional artifact store of
    cvmfs-ephemeral (src/server/src/main.py): upload, update_ttl, delete,
    list_files and clean, together with the cvmfs_server transaction
    primitives (transaction / publish / abort) and the notifier.

    Modelling choices:
    - A repository directory /cvmfs/<repo> is a finite map from the names of
      its immediate entries to entries (a file with its contents, or a
      directory).  Names are atomic path components.
    - A repository has a published tree and, while a cvmfs transaction is
      open, a working tree; paths under /cvmfs/<repo> read the working tree
      when a transaction is open and the published tree otherwise.
    - The contents of the index file ttl.json are either the text written by
      json.dumps of a TTL mapping (FTTL) or other text (FData), on which
      json.loads (or the later ttl["expires_at"] lookup) raises.
    - The outcome of each external subprocess (cvmfs_server transaction,
      publish, abort, cvmfs_swissknife notify) and of docker_unpack is given
      by an environment record, together with the value of time.time(); every
      subprocess call is recorded in a log.
    - Timestamps are integers (Python floats in the source). *)

From stdpp Require Import base gmap strings list fin_maps pretty.
From Stdlib Require Import ZArith.

Open Scope Z_scope.

(* ------------------------------------------------------------------ *)
(** * Data model *)

Definition TTL_FILENAME : string := "ttl.json".
Definition DEFAULT_TTL_S : Z := 7200.
Definition PATH_BLACKLIST : list string := [TTL_FILENAME].

Definition in_blacklist (n : string) : bool :=
  existsb (String.eqb n) PATH_BLACKLIST.

(** Contents of a regular file. *)
Inductive fcontent :=
| FData (text : string)
| FTTL (index : gmap string Z).  (* json.dumps({name: {"expires_at": t}}) *)

(** An immediate entry of a repository directory. *)
Inductive entry :=
| File (c : fcontent)
| Dir (listing : list string).

Record repo := mkRepo {
  pub : gmap string entry;            (* published revision *)
  work : option (gmap string entry)   (* working tree of an open transaction *)
}.

Definition view (R : repo) : gmap string entry :=
  match work R with Some w => w | None => pub R end.

Inductive prim := Begin | Publish | Abort | Notify.

Record state := mkState {
  repos : gmap string repo;     (* the directories /cvmfs/<repo> *)
  log : list (prim * string)    (* subprocess calls, in order *)
}.

(** Outcomes of the external collaborators for one request. *)
Record env := mkEnv {
  now : Z;                                 (* time.time() *)
  begin_ok : bool;
  publish_ok : bool;
  abort_ok : bool;
  notify_ok : bool;
  unpack_result : string + list string;    (* docker_unpack: raises / tree *)
  upload_time_s : Z;
  publish_time_s : Z
}.

(** Python exceptions raised inside the transaction bodies. *)
Inductive exn :=
| FileNotFoundError (path : string)
| IsADirectoryError (path : string)
| NotADirectoryError (path : string)
| JSONDecodeError
| KeyError (key : string)
| ExtError (msg : string).

Definition str_of_exn (e : exn) : string :=
  match e with
  | FileNotFoundError p => "[Errno 2] No such file or directory: '" +:+ p +:+ "'"
  | IsADirectoryError p => "[Errno 21] Is a directory: '" +:+ p +:+ "'"
  | NotADirectoryError p => "[Errno 20] Not a directory: '" +:+ p +:+ "'"
  | JSONDecodeError => "Expecting value: line 1 column 1 (char 0)"
  | KeyError k => "'" +:+ k +:+ "'"
  | ExtError m => m
  end.

(** Errors surfaced to the caller: HTTPException, or CalledProcessError of a
    subprocess run with check=True. *)
Inductive err :=
| HTTPException (status_code : Z) (detail : string)
| CalledProcessError (cmd : prim) (repo_name : string).

Inductive jval := JStr (s : string) | JNum (z : Z) | JList (xs : list string).

Definition response := list (string * jval).

Definition result := (err + response)%type.

Record upload_file := mkUploadFile {
  filename : string;
  content_type : string;
  data : string
}.

Definition repo_path (r : string) : string := "/cvmfs/" +:+ r.
Definition entry_path (r n : string) : string := "/cvmfs/" +:+ r +:+ "/" +:+ n.

(* ------------------------------------------------------------------ *)
(** * Filesystem operations inside a transaction body

    A body runs on the working tree and either returns a value or raises;
    in both cases the working tree it leaves behind is returned. *)

Definition B (A : Type) := gmap string entry -> (exn + A) * gmap string entry.

Definition ret {A} (a : A) : B A := fun w => (inr a, w).
Definition raise {A} (e : exn) : B A := fun w => (inl e, w).
Definition bind {A C} (m : B A) (f : A -> B C) : B C :=
  fun w => match m w with
           | (inl e, w') => (inl e, w')
           | (inr a, w') => f a w'
           end.

Notation "'let*' x := m 'in' k" := (bind m (fun x => k))
  (at level 200, x name, m at level 100, k at level 200).

Definition path_exists (n : string) : B bool :=
  fun w => (inr (bool_decide (is_Some (w !! n))), w).

Definition is_dir (n : string) : B bool :=
  fun w => (inr (match w !! n with Some (Dir _) => true | _ => false end), w).

(** shutil.rmtree *)
Definition rmtree (r n : string) : B unit :=
  fun w => match w !! n with
           | Some (Dir _) => (inr tt, delete n w)
           | Some (File _) => (inl (NotADirectoryError (entry_path r n)), w)
           | None => (inl (FileNotFoundError (entry_path r n)), w)
           end.

(** Path.unlink *)
Definition unlink (r n : string) : B unit :=
  fun w => match w !! n with
           | Some (File _) => (inr tt, delete n w)
           | Some (Dir _) => (inl (IsADirectoryError (entry_path r n)), w)
           | None => (inl (FileNotFoundError (entry_path r n)), w)
           end.

(** Path.write_text / open("wb").write *)
Definition write_file (r n : string) (c : fcontent) : B unit :=
  fun w => match w !! n with
           | Some (Dir _) => (inl (IsADirectoryError (entry_path r n)), w)
           | _ => (inr tt, <[n := File c]> w)
           end.

(** json.loads(path.read_text()) on the index file *)
Definition load_ttl (r : string) : B (gmap string Z) :=
  fun w => match w !! TTL_FILENAME with
           | Some (File (FTTL m)) => (inr m, w)
           | Some (File (FData _)) => (inl JSONDecodeError, w)
           | Some (Dir _) => (inl (IsADirectoryError (entry_path r TTL_FILENAME)), w)
           | None => (inl (FileNotFoundError (entry_path r TTL_FILENAME)), w)
           end.

(** `if p.is_dir(): shutil.rmtree(p) else: p.unlink()` *)
Definition remove_target (r n : string) : B unit :=
  let* d := is_dir n in if d then rmtree r n else unlink r n.

(** docker_unpack(file.file, dest) has created the tree at dest. *)
Definition unpack_into (n : string) (l : list string) : B unit :=
  fun w => (inr tt, <[n := Dir l]> w).

(* ------------------------------------------------------------------ *)
(** * Transaction coordinator

    The block `with transaction_lock: transaction; try: body except: abort,
    raise HTTPException(500, ...); publish; notify` shared by upload,
    update_ttl, delete and clean; [on_error] is the detail of the 500. *)

Definition set_repo (r : string) (R : repo) (st : state) : state :=
  mkState (<[r := R]> (repos st)) (log st).

Definition log_call (p : prim) (r : string) (st : state) : state :=
  mkState (repos st) (log st ++ [(p, r)]).

Definition file_exists (st : state) (r n : string) : bool :=
  match repos st !! r with
  | Some R => bool_decide (is_Some (view R !! n))
  | None => false
  end.

Definition notify (e : env) (repo_name : string) (st : state) : result * state :=
  match repos st !! repo_name with
  | None => (inl (HTTPException 404 ("Repo " +:+ repo_name +:+ " does not exist")), st)
  | Some _ =>
      let st1 := log_call Notify repo_name st in
      if notify_ok e
      then (inr [("message", JStr ("Notified clients about changes in repo " +:+ repo_name))], st1)
      else (inl (CalledProcessError Notify repo_name), st1)
  end.

Definition transact {A} (e : env) (repo_name : string) (body : B A)
    (on_error : exn -> string) (st : state) : (err + A) * state :=
  let st1 := log_call Begin repo_name st in
  match repos st !! repo_name with
  | Some R =>
      match work R, begin_ok e with
      | None, true =>
          match body (pub R) with
          | (inl ex, w') =>
              let st2 := set_repo repo_name (mkRepo (pub R) (Some w')) st1 in
              let st3 := log_call Abort repo_name st2 in
              if abort_ok e
              then (inl (HTTPException 500 (on_error ex)),
                    set_repo repo_name (mkRepo (pub R) None) st3)
              else (inl (CalledProcessError Abort repo_name), st3)
          | (inr a, w') =>
              let st2 := set_repo repo_name (mkRepo (pub R) (Some w')) st1 in
              let st3 := log_call Publish repo_name st2 in
              if publish_ok e
              then
                let st4 := set_repo repo_name (mkRepo w' None) st3 in
                match notify e repo_name st4 with
                | (inl er, st5) => (inl er, st5)
                | (inr _, st5) => (inr a, st5)
                end
              else (inl (CalledProcessError Publish repo_name), st3)
          end
      | _, _ => (inl (CalledProcessError Begin repo_name), st1)
      end
  | None => (inl (CalledProcessError Begin repo_name), st1)
  end.

(* ------------------------------------------------------------------ *)
(** * The endpoints *)

Definition upload_body (e : env) (repo_name : string) (file : upload_file)
    (unpack : bool) (expires_at : Z) : B unit :=
  let dest := filename file in
  let* ex := path_exists dest in
  let* _ := (if ex then remove_target repo_name dest else ret tt) in
  let* _ := (if unpack
             then match unpack_result e with
                  | inl msg => raise (ExtError msg)
                  | inr l => unpack_into dest l
                  end
             else write_file repo_name dest (FData (data file))) in
  let* tex := path_exists TTL_FILENAME in
  let* ttl_obj := (if tex then load_ttl repo_name else ret ∅) in
  write_file repo_name TTL_FILENAME (FTTL (<[dest := expires_at]> ttl_obj)).

Definition upload (e : env) (repo_name : string) (file : upload_file)
    (unpack overwrite : bool) (ttl_s : Z) (st : state) : result * state :=
  if in_blacklist (filename file)
  then (inl (HTTPException 400 ("Filename " +:+ filename file +:+ " is not allowed")), st)
  else if negb (bool_decide (is_Some (repos st !! repo_name)))
  then (inl (HTTPException 404 ("Repo " +:+ repo_name +:+ " does not exist")), st)
  else if negb overwrite && file_exists st repo_name (filename file)
  then (inl (HTTPException 409 ("File " +:+ filename file +:+ " already exists")), st)
  else
    let expires_at := now e + ttl_s in
    match transact e repo_name (upload_body e repo_name file unpack expires_at)
            (fun _ => "Failed to upload file") st with
    | (inl er, st') => (inl er, st')
    | (inr _, st') =>
        (inr [("filename", JStr (filename file));
              ("content_type", JStr (content_type file));
              ("expires_at", JNum expires_at);
              ("upload_time_s", JNum (upload_time_s e));
              ("publish_time_s", JNum (publish_time_s e))], st')
    end.

Definition update_ttl_body (repo_name file_name : string) (expires_at : Z) : B unit :=
  let* ttl_obj := load_ttl repo_name in
  write_file repo_name TTL_FILENAME (FTTL (<[file_name := expires_at]> ttl_obj)).

Definition update_ttl (e : env) (repo_name file_name : string) (ttl_s : Z)
    (st : state) : result * state :=
  if in_blacklist file_name
  then (inl (HTTPException 400 ("Filename " +:+ file_name +:+ " is not allowed")), st)
  else if negb (file_exists st repo_name file_name)
  then (inl (HTTPException 404 ("File " +:+ file_name +:+ " does not exist in repo " +:+ repo_name)), st)
  else
    match transact e repo_name (update_ttl_body repo_name file_name (now e + ttl_s))
            (fun ex => "Failed to update TTL for file: " +:+ file_name +:+ ": " +:+ str_of_exn ex) st with
    | (inl er, st') => (inl er, st')
    | (inr _, st') => (inr [("filename", JStr file_name); ("ttl_s", JNum ttl_s)], st')
    end.

Definition is_file (x : entry) : bool :=
  match x with File _ => true | Dir _ => false end.

Definition list_files (repo_name : string) (st : state) : result :=
  match repos st !! repo_name with
  | None => inl (HTTPException 404 ("Repo " +:+ repo_name +:+ " does not exist"))
  | Some R => inr [("files", JList (map fst (filter (fun kv => is_file kv.2 = true)
                                                  (map_to_list (view R)))))]
  end.

Definition delete_body (repo_name target_name : string) : B unit :=
  let* _ := remove_target repo_name target_name in
  let* ttl_obj := load_ttl repo_name in
  match ttl_obj !! target_name with
  | None => raise (KeyError target_name)
  | Some _ => write_file repo_name TTL_FILENAME (FTTL (delete target_name ttl_obj))
  end.

(** The endpoint `delete` of the source (the name is taken by map deletion). *)
Definition delete_artifact (e : env) (repo_name target_name : string)
    (st : state) : result * state :=
  if in_blacklist target_name
  then (inl (HTTPException 400 ("Target `" +:+ target_name +:+ "` is not allowed")), st)
  else if negb (file_exists st repo_name target_name)
  then (inl (HTTPException 404 ("File " +:+ target_name +:+ " does not exist in repo " +:+ repo_name)), st)
  else
    match transact e repo_name (delete_body repo_name target_name)
            (fun _ => "Failed to delete file") st with
    | (inl er, st') => (inl er, st')
    | (inr _, st') => (inr [("target_name", JStr target_name)], st')
    end.

(** The loop over `ttl_obj.copy().items()`; the snapshot is the list of
    entries of the index as read, [acc] is (cleaned, errors, ttl_obj). *)
Fixpoint clean_loop (e : env) (repo_name : string) (items : list (string * Z))
    (acc : nat * nat * gmap string Z) : B (nat * nat * gmap string Z) :=
  match items with
  | [] => ret acc
  | (target_name, expires_at) :: rest =>
      let '(cleaned, errors, ttl_obj) := acc in
      if expires_at <? now e then
        let* ex := path_exists target_name in
        let* ce := (if ex
                    then let* _ := remove_target repo_name target_name in
                         ret (S cleaned, errors)
                    else ret (cleaned, S errors)) in
        clean_loop e repo_name rest (ce.1, ce.2, delete target_name ttl_obj)
      else clean_loop e repo_name rest acc
  end.

Definition clean_body (e : env) (repo_name : string) : B (nat * nat) :=
  let* ttl_obj := load_ttl repo_name in
  let* res := clean_loop e repo_name (map_to_list ttl_obj) (0%nat, 0%nat, ttl_obj) in
  let* _ := write_file repo_name TTL_FILENAME (FTTL res.2) in
  ret res.1.

Definition clean_message (repo_name : string) (cleaned errors : nat) : string :=
  "Cleaned up " +:+ pretty cleaned +:+ " expired files in repo: " +:+ repo_name
    +:+ ". Errors: " +:+ pretty errors.

Definition clean (e : env) (repo_name : string) (st : state) : result * state :=
  if negb (file_exists st repo_name TTL_FILENAME)
  then (inr [("message", JStr "No TTL file found. Skipping clean up.")], st)
  else
    match transact e repo_name (clean_body e repo_name)
            (fun ex => "Failed to clean up expired files: " +:+ str_of_exn ex) st with
    | (inl er, st') => (inl er, st')
    | (inr ce, st') => (inr [("message", JStr (clean_message repo_name ce.1 ce.2))], st')
    end.

(** The mutating requests. *)
Inductive op :=
| OpUpload (repo_name : string) (file : upload_file) (unpack overwrite : bool) (ttl_s : Z)
| OpUpdateTTL (repo_name file_name : string) (ttl_s : Z)
| OpDelete (repo_name target_name : string)
| OpClean (repo_name : string).

Definition run_op (e : env) (o : op) (st : state) : result * state :=
  match o with
  | OpUpload r f u ov t => upload e r f u ov t st
  | OpUpdateTTL r n t => update_ttl e r n t st
  | OpDelete r n => delete_artifact e r n st
  | OpClean r => clean e r st
  end.

(* ------------------------------------------------------------------ *)
(** * Concrete inputs used by the witnesses *)

Definition env_ok (t : Z) : env := mkEnv t true true true true (inr ["layer.tar"]) 1 2.

(** A freshly provisioned repository: cvmfs_server mkfs leaves the file
    new_repository in it, there is no index yet. *)
Definition st_fresh : state :=
  mkState {[ "r" := mkRepo {[ "new_repository" := File (FData "") ]} None ]} [].

Definition file_a : upload_file := mkUploadFile "a" "text/plain" "hello".

(** The fresh repository after uploading a with ttl_s = 10 at time 100. *)
Definition index_a : gmap string Z := {[ "a" := 110 ]}.
Definition R_a : repo :=
  mkRepo (<[TTL_FILENAME := File (FTTL index_a)]>
            (<[ "a" := File (FData "hello") ]> {[ "new_repository" := File (FData "") ]})) None.
Definition st_a : state :=
  mkState {[ "r" := R_a ]} [(Begin, "r"); (Publish, "r"); (Notify, "r")].

(* ------------------------------------------------------------------ *)
(** * Definitions used by the sweep and the request sequences *)

(** A repository whose ttl.json does not hold a TTL mapping. *)
Definition st_bad_index : state :=
  mkState {[ "r" := mkRepo {[ TTL_FILENAME := File (FData "") ]} None ]} [].

(** Deleting a list of keys, first to last. *)
Fixpoint delete_keys {A} (ks : list string) (m : gmap string A) : gmap string A :=
  match ks with
  | [] => m
  | k :: ks' => delete_keys ks' (delete k m)
  end.

(** Names of the entries of a snapshot whose expiry is strictly before t. *)
Definition expired_keys (t : Z) (l : list (string * Z)) : list string :=
  (filter (fun kv => kv.2 < t) l).*1.

(** Number of expired entries whose artifact is present in w / absent from w. *)
Definition count_present (t : Z) (w : gmap string entry) (l : list (string * Z)) : nat :=
  length (filter (fun kv => kv.2 < t /\ is_Some (w !! kv.1)) l).
Definition count_absent (t : Z) (w : gmap string entry) (l : list (string * Z)) : nat :=
  length (filter (fun kv => kv.2 < t /\ ~ is_Some (w !! kv.1)) l).

(** Index whose entry b has no artifact. *)
Definition index_b : gmap string Z := {[ "b" := 5 ]}.
Definition R_stale : repo :=
  mkRepo (<[TTL_FILENAME := File (FTTL index_b)]> {[ "new_repository" := File (FData "") ]}) None.
Definition st_stale : state := mkState {[ "r" := R_stale ]} [].

Fixpoint run_trace (tr : list (env * op)) (st : state) : state :=
  match tr with
  | [] => st
  | (e, o) :: tr' => run_trace tr' (run_op e o st).2
  end.

(** Every request of the sequence succeeded. *)
Fixpoint all_succeed (tr : list (env * op)) (st : state) : bool :=
  match tr with
  | [] => true
  | (e, o) :: tr' =>
      match (run_op e o st).1 with
      | inr _ => all_succeed tr' (run_op e o st).2
      | inl _ => false
      end
  end.

(** Names of the published entries of repository r. *)
Definition published_names (st : state) (r : string) : gset string :=
  match repos st !! r with Some R => dom (pub R) | None => ∅ end.

(** Names with an entry in the published index of repository r. *)
Definition index_names (st : state) (r : string) : gset string :=
  match repos st !! r with
  | Some R => match pub R !! TTL_FILENAME with
              | Some (File (FTTL m)) => dom m
              | _ => ∅
              end
  | None => ∅
  end.

(** The claim's bookkeeping: names uploaded through the store to r and not
    deleted since, by delete or by a sweep (a sweep deletes the names that
    disappear from the published tree). *)
Definition step_uploaded (r : string) (o : op) (st st' : state) (T : gset string) : gset string :=
  match o with
  | OpUpload r' f _ _ _ => if String.eqb r' r then T ∪ {[ filename f ]} else T
  | OpUpdateTTL _ _ _ => T
  | OpDelete r' n => if String.eqb r' r then T ∖ {[ n ]} else T
  | OpClean r' => if String.eqb r' r
                  then T ∖ (published_names st r ∖ published_names st' r) else T
  end.

Fixpoint uploaded_live (r : string) (tr : list (env * op)) (st : state) (T : gset string) :
    gset string :=
  match tr with
  | [] => T
  | (e, o) :: tr' =>
      let st' := (run_op e o st).2 in uploaded_live r tr' st' (step_uploaded r o st st' T)
  end.

(** The same bookkeeping where update_ttl also registers its name. *)
Definition step_tracked (r : string) (o : op) (st st' : state) (T : gset string) : gset string :=
  match o with
  | OpUpload r' f _ _ _ => if String.eqb r' r then T ∪ {[ filename f ]} else T
  | OpUpdateTTL r' n _ => if String.eqb r' r then T ∪ {[ n ]} else T
  | OpDelete r' n => if String.eqb r' r then T ∖ {[ n ]} else T
  | OpClean r' => if String.eqb r' r
                  then T ∖ (published_names st r ∖ published_names st' r) else T
  end.

Fixpoint tracked (r : string) (tr : list (env * op)) (st : state) (T : gset string) :
    gset string :=
  match tr with
  | [] => T
  | (e, o) :: tr' =>
      let st' := (run_op e o st).2 in tracked r tr' st' (step_tracked r o st st' T)
  end.

(** Upload a to the fresh repository, then set the TTL of new_repository. *)
Definition trace_untracked : list (env * op) :=
  [(env_ok 100, OpUpload "r" file_a false false 10);
   (env_ok 100, OpUpdateTTL "r" "new_repository" 50)].

(** The index mapping as upload reads it (absent index: empty mapping). *)
Definition index_or_empty (w : gmap string entry) : gmap string Z :=
  match w !! TTL_FILENAME with Some (File (FTTL m)) => m | _ => ∅ end.

(** The invariant of a repository with no open transaction: its index is
    absent and T is empty, or its index is a TTL mapping whose names are T,
    none of which is ttl.json and each of which has a published entry. *)
Definition index_inv (r : string) (st : state) (T : gset string) : Prop :=
  exists R, repos st !! r = Some R /\ work R = None /\
    ((pub R !! TTL_FILENAME = None /\ T ≡ ∅) \/
     exists m, pub R !! TTL_FILENAME = Some (File (FTTL m)) /\ dom m ≡ T /\
       m !! TTL_FILENAME = None /\ (forall k, k ∈ T -> is_Some (pub R !! k))).

(* ------------------------------------------------------------------ *)
(** * download, gc and housekeeping *)

(** The entry upload leaves at dest: the bytes written to dest, or the tree
    docker_unpack creates there ([None]: docker_unpack raised). *)
Definition upload_entry (e : env) (file : upload_file) (unpack : bool) : option entry :=
  if unpack
  then match unpack_result e with inl _ => None | inr l => Some (Dir l) end
  else Some (File (FData (data file))).

(** The endpoint download: FileResponse of /cvmfs/<repo>/<file> when that
    path exists (the response streams the entry returned). *)
Definition download (repo_name file_name : string) (st : state) : err + entry :=
  let missing := inl (HTTPException 404 ("File " +:+ file_name +:+ " does not exist in repo " +:+ repo_name)) in
  match repos st !! repo_name with
  | Some R => match view R !! file_name with Some x => inr x | None => missing end
  | None => missing
  end.

(** Errors of housekeeping: the one raised by a clean, or the
    CalledProcessError of `cvmfs_server gc`. *)
Inductive hk_err := HKError (er : err) | GcCalledProcessError.

(** The endpoint gc ([gc_ok]: the subprocess succeeds). *)
Definition gc (gc_ok : bool) (gc_time_s : Z) : hk_err + response :=
  if gc_ok
  then inr [("message", JStr "Garbage collection completed"); ("gc_time_s", JNum gc_time_s)]
  else inl GcCalledProcessError.

(** The loop of housekeeping: clean(repo_name) for each directory of /cvmfs
    in the order iterdir lists them, each call with its own clock; an
    exception of clean propagates out of the loop. *)
Fixpoint housekeeping_loop (items : list (env * string)) (st : state) : (err + unit) * state :=
  match items with
  | [] => (inr tt, st)
  | (e, repo_name) :: rest =>
      match clean e repo_name st with
      | (inl er, st') => (inl er, st')
      | (inr _, st') => housekeeping_loop rest st'
      end
  end.

Definition housekeeping (items : list (env * string)) (gc_ok : bool)
    (gc_time_s housekeeping_time_s : Z) (st : state) : (hk_err + response) * state :=
  match housekeeping_loop items st with
  | (inl er, st') => (inl (HKError er), st')
  | (inr _, st') =>
      match gc gc_ok gc_time_s with
      | inl g => (inl g, st')
      | inr _ => (inr [("message", JStr "Housekeeping completed");
                       ("housekeeping_time_s", JNum housekeeping_time_s)], st')
      end
  end.


(** A repository whose ttl.json is not JSON, beside one artifact. *)
Definition st_corrupt : state :=
  mkState {[ "r" := mkRepo (<[TTL_FILENAME := File (FData "")]> {[ "new_repository" := File (FData "") ]}) None ]} [].

(** Discharges the hypotheses of a theorem at a concrete input. *)
Ltac settle := first [ reflexivity | (left; reflexivity) | (right; reflexivity)
                     | (eexists; reflexivity) | (intros Hc; discriminate Hc)
                     | (vm_compute; reflexivity) | (right; eexists; reflexivity) ].

(* ------------------------------------------------------------------ *)
(** * Facts about the coordinator *)

Lemma repos_log_call p r st : repos (log_call p r st) = repos st.
Proof. reflexivity. Qed.

Lemma transact_http_error {A} e r (body : B A) f st c d st' :
  transact e r body f st = (inl (HTTPException c d), st') ->
  repos st' = repos st.
Proof.
  unfold transact, set_repo, log_call. destruct (repos st !! r) as [R|] eqn:HR; [|intros H; inversion H].
  destruct (work R) eqn:HW, (begin_ok e); try (intros H; inversion H; fail).
  destruct (body (pub R)) as [[ex|a] w'].
  - destruct (abort_ok e); intros H; inversion H; subst; simpl.
    rewrite insert_insert_eq. apply insert_id. rewrite HR.
    destruct R; simpl in *; subst; reflexivity.
  - destruct (publish_ok e); [|intros H; inversion H].
    unfold notify; simpl. rewrite lookup_insert_eq.
    destruct (notify_ok e); intros H; inversion H.
Qed.

(** On a repository without an open transaction whose primitives succeed, a
    body that raises is followed by a forced abort and a 500. *)
Lemma transact_raise {A} e r (body : B A) f st R ex w' :
  repos st !! r = Some R -> work R = None ->
  begin_ok e = true -> abort_ok e = true ->
  body (pub R) = (inl ex, w') ->
  transact e r body f st =
    (inl (HTTPException 500 (f ex)),
     mkState (repos st) (log st ++ [(Begin, r)] ++ [(Abort, r)])).
Proof.
  intros HR HW HB HA Hb. unfold transact, set_repo, log_call. rewrite HR, HW, HB, Hb, HA.
  simpl. rewrite insert_insert_eq, insert_id.
  - rewrite <- app_assoc. reflexivity.
  - rewrite HR. destruct R; simpl in *; subst; reflexivity.
Qed.

(** A successful transaction ran its body to completion on the published
    tree of a repository with no open transaction, and published the result. *)
Lemma transact_ok {A} e r (body : B A) f st a st' :
  transact e r body f st = (inr a, st') ->
  exists R w', repos st !! r = Some R /\ work R = None /\
    body (pub R) = (inr a, w') /\
    repos st' = <[r := mkRepo w' None]> (repos st).
Proof.
  unfold transact, set_repo, log_call. destruct (repos st !! r) as [R|] eqn:HR; [|intros H; inversion H].
  destruct (work R) eqn:HW, (begin_ok e); try (intros H; inversion H; fail).
  destruct (body (pub R)) as [[ex|a'] w'] eqn:Hb.
  - destruct (abort_ok e); intros H; inversion H.
  - destruct (publish_ok e); [|intros H; inversion H].
    unfold notify; simpl. rewrite lookup_insert_eq.
    destruct (notify_ok e); intros H; inversion H; subst.
    exists R, w'. split; [done|]. split; [done|]. split; [done|].
    simpl. rewrite insert_insert_eq. reflexivity.
Qed.

(** Transactions on one repository leave every other repository alone. *)
Lemma transact_other {A} e r (body : B A) f st res st' r' :
  transact e r body f st = (res, st') -> r' <> r ->
  repos st' !! r' = repos st !! r'.
Proof.
  intros H Hne. unfold transact, set_repo, log_call in H.
  destruct (repos st !! r) as [R|] eqn:HR; [|inversion H; reflexivity].
  destruct (work R), (begin_ok e); try (inversion H; reflexivity).
  destruct (body (pub R)) as [[ex|a'] w'].
  - destruct (abort_ok e); inversion H; subst; simpl;
      rewrite ?lookup_insert_ne by congruence; reflexivity.
  - destruct (publish_ok e); [|inversion H; simpl; rewrite lookup_insert_ne by congruence; reflexivity].
    unfold notify in H; simpl in H. rewrite lookup_insert_eq in H.
    destruct (notify_ok e); inversion H; subst; simpl;
      rewrite !lookup_insert_ne by congruence; reflexivity.
Qed.

(* ------------------------------------------------------------------ *)
(** * Claims about errors *)

(** C1: every mutating request (upload, update_ttl, delete, and also clean)
    that answers with an HTTP error (400 reserved name, 404 not found,
    409 conflict, or 500 after the forced abort) leaves every repository,
    published tree and transaction state, exactly as it was. *)
Theorem failed_request_leaves_repos_unchanged e o st c d st' :
  run_op e o st = (inl (HTTPException c d), st') ->
  repos st' = repos st.
Proof.
  destruct o as [r f u ov t | r n t | r n | r]; simpl.
  - unfold upload.
    destruct (in_blacklist (filename f)); [intros H; inversion H; reflexivity|].
    destruct (negb _); [intros H; inversion H; reflexivity|].
    destruct (negb ov && _); [intros H; inversion H; reflexivity|].
    destruct (transact _ _ _ _ _) as [[er|a] st1] eqn:HT; intros H; inversion H; subst.
    eapply transact_http_error; eauto.
  - unfold update_ttl.
    destruct (in_blacklist n); [intros H; inversion H; reflexivity|].
    destruct (negb _); [intros H; inversion H; reflexivity|].
    destruct (transact _ _ _ _ _) as [[er|a] st1] eqn:HT; intros H; inversion H; subst.
    eapply transact_http_error; eauto.
  - unfold delete_artifact.
    destruct (in_blacklist n); [intros H; inversion H; reflexivity|].
    destruct (negb _); [intros H; inversion H; reflexivity|].
    destruct (transact _ _ _ _ _) as [[er|a] st1] eqn:HT; intros H; inversion H; subst.
    eapply transact_http_error; eauto.
  - unfold clean.
    destruct (negb _); [intros H; inversion H|].
    destruct (transact _ _ _ _ _) as [[er|a] st1] eqn:HT; intros H; inversion H; subst.
    eapply transact_http_error; eauto.
Qed.

(** Witness of C1: deleting new_repository from the fresh repository
    removes it in the working tree, then fails on the missing index (500). *)
Lemma failed_request_leaves_repos_unchanged_witness :
  repos (run_op (env_ok 100) (OpDelete "r" "new_repository") st_fresh).2 = repos st_fresh.
Proof.
  apply (failed_request_leaves_repos_unchanged (env_ok 100) (OpDelete "r" "new_repository")
           st_fresh 500 "Failed to delete file").
  vm_compute. reflexivity.
Defined.

(** C5: a request whose target is the reserved name ttl.json is refused with
    400 before anything else is checked; the state (repositories and the
    log of subprocess calls) is returned unchanged. *)
Theorem reserved_name_forbidden e r ct dat u ov t st :
  upload e r (mkUploadFile TTL_FILENAME ct dat) u ov t st =
    (inl (HTTPException 400 "Filename ttl.json is not allowed"), st) /\
  update_ttl e r TTL_FILENAME t st =
    (inl (HTTPException 400 "Filename ttl.json is not allowed"), st) /\
  delete_artifact e r TTL_FILENAME st =
    (inl (HTTPException 400 "Target `ttl.json` is not allowed"), st).
Proof. repeat split; reflexivity. Qed.

(** C8: when ttl.json does not exist in the repository (or the repository
    does not exist), clean returns the no-op message and the state,
    including the log of subprocess calls, is unchanged. *)
Theorem clean_without_index_is_noop e r st :
  file_exists st r TTL_FILENAME = false ->
  clean e r st = (inr [("message", JStr "No TTL file found. Skipping clean up.")], st).
Proof. intros H. unfold clean. rewrite H. reflexivity. Qed.

Lemma clean_without_index_is_noop_witness :
  clean (env_ok 100) "r" st_fresh =
    (inr [("message", JStr "No TTL file found. Skipping clean up.")], st_fresh).
Proof. apply clean_without_index_is_noop. vm_compute. reflexivity. Defined.

Lemma in_blacklist_false n : n <> TTL_FILENAME -> in_blacklist n = false.
Proof.
  intros H. unfold in_blacklist; simpl. rewrite orb_false_r.
  apply String.eqb_neq. exact H.
Qed.

Lemma file_exists_true st r n R :
  repos st !! r = Some R -> work R = None -> is_Some (pub R !! n) ->
  file_exists st r n = true.
Proof.
  intros HR HW Hn. unfold file_exists, view. rewrite HR, HW.
  apply bool_decide_eq_true. exact Hn.
Qed.

(** Removing an existing entry (file or directory) succeeds and deletes it. *)
Lemma remove_target_ok r n w :
  is_Some (w !! n) -> remove_target r n w = (inr tt, delete n w).
Proof.
  intros [x Hx]. unfold remove_target, bind, is_dir, rmtree, unlink.
  rewrite Hx. destruct x; rewrite Hx; reflexivity.
Qed.

Lemma delete_body_raises r n w :
  n <> TTL_FILENAME -> is_Some (w !! n) ->
  (w !! TTL_FILENAME = None \/
   exists m, w !! TTL_FILENAME = Some (File (FTTL m)) /\ m !! n = None) ->
  exists ex w', delete_body r n w = (inl ex, w').
Proof.
  intros Hne Hn Hidx. unfold delete_body.
  unfold bind at 1. rewrite remove_target_ok by exact Hn.
  unfold bind, load_ttl. rewrite lookup_delete_ne by congruence.
  destruct Hidx as [-> | [m [-> Hm]]].
  - eauto.
  - rewrite Hm. unfold raise. eauto.
Qed.

(** C9: deleting an artifact that exists but has no index entry (no index
    file, or an index without that name) removes it in the working tree,
    then raises; the transaction is aborted, the answer is the 500
    "Failed to delete file", and the repositories, hence the artifact in
    the published tree, are as before. *)
Theorem delete_untracked_fails e r n st R :
  n <> TTL_FILENAME ->
  repos st !! r = Some R -> work R = None -> is_Some (pub R !! n) ->
  (pub R !! TTL_FILENAME = None \/
   exists m, pub R !! TTL_FILENAME = Some (File (FTTL m)) /\ m !! n = None) ->
  begin_ok e = true -> abort_ok e = true ->
  delete_artifact e r n st =
    (inl (HTTPException 500 "Failed to delete file"),
     mkState (repos st) (log st ++ [(Begin, r)] ++ [(Abort, r)])) /\
  is_Some (pub R !! n).
Proof.
  intros Hne HR HW Hn Hidx HB HA. split; [|exact Hn].
  unfold delete_artifact. rewrite in_blacklist_false by exact Hne.
  rewrite (file_exists_true st r n R HR HW Hn). simpl.
  destruct (delete_body_raises r n (pub R) Hne Hn Hidx) as [ex [w' Hb]].
  erewrite transact_raise; eauto.
Qed.

Lemma delete_untracked_fails_witness :
  delete_artifact (env_ok 100) "r" "new_repository" st_fresh =
    (inl (HTTPException 500 "Failed to delete file"),
     mkState (repos st_fresh) (log st_fresh ++ [(Begin, "r")] ++ [(Abort, "r")])) /\
  is_Some (pub (mkRepo {[ "new_repository" := File (FData "") ]} None) !! "new_repository").
Proof.
  apply (delete_untracked_fails (env_ok 100) "r" "new_repository" st_fresh
           (mkRepo {[ "new_repository" := File (FData "") ]} None));
    try reflexivity.
  - discriminate.
  - vm_compute. eauto.
  - left. vm_compute. reflexivity.
Defined.

(** C10: with no index file, update_ttl on an existing artifact raises
    FileNotFoundError inside the transaction, which is aborted; the answer
    is a 500 and nothing changes (no index is created).  The upload body,
    on the same tree, treats the missing index as an empty mapping and
    creates it. *)
Theorem update_ttl_without_index_fails e r n t st R :
  n <> TTL_FILENAME ->
  repos st !! r = Some R -> work R = None -> is_Some (pub R !! n) ->
  pub R !! TTL_FILENAME = None ->
  begin_ok e = true -> abort_ok e = true ->
  update_ttl e r n t st =
    (inl (HTTPException 500 ("Failed to update TTL for file: " +:+ n +:+ ": " +:+
                             str_of_exn (FileNotFoundError (entry_path r TTL_FILENAME)))),
     mkState (repos st) (log st ++ [(Begin, r)] ++ [(Abort, r)])) /\
  (forall f x, filename f = n ->
     exists w', upload_body e r f false x (pub R) = (inr tt, w') /\
                w' !! TTL_FILENAME = Some (File (FTTL {[ n := x ]}))).
Proof.
  intros Hne HR HW Hn Hidx HB HA. split.
  - unfold update_ttl. rewrite in_blacklist_false by exact Hne.
    rewrite (file_exists_true st r n R HR HW Hn). simpl.
    rewrite (transact_raise e r _ _ st R (FileNotFoundError (entry_path r TTL_FILENAME))
               (pub R) HR HW HB HA); [reflexivity|].
    unfold update_ttl_body, bind, load_ttl. rewrite Hidx. reflexivity.
  - intros f x Hf. subst n.
    unfold upload_body. unfold bind at 1, path_exists at 1.
    rewrite bool_decide_true by exact Hn.
    unfold bind at 1. rewrite remove_target_ok by exact Hn.
    unfold bind, write_file. rewrite lookup_delete_eq.
    unfold path_exists. rewrite lookup_insert_ne by congruence.
    rewrite lookup_delete_ne by congruence. rewrite Hidx.
    rewrite bool_decide_false by (intros [? H]; discriminate).
    unfold ret. rewrite lookup_insert_ne by congruence.
    rewrite lookup_delete_ne by congruence. rewrite Hidx.
    eexists. split; [reflexivity|]. rewrite lookup_insert_eq.
    rewrite insert_empty. reflexivity.
Qed.

Lemma update_ttl_without_index_fails_witness :
  update_ttl (env_ok 100) "r" "new_repository" 50 st_fresh =
    (inl (HTTPException 500 ("Failed to update TTL for file: " +:+ "new_repository" +:+ ": " +:+
                             str_of_exn (FileNotFoundError (entry_path "r" TTL_FILENAME)))),
     mkState (repos st_fresh) (log st_fresh ++ [(Begin, "r")] ++ [(Abort, "r")])) /\
  (forall f x, filename f = "new_repository" ->
     exists w', upload_body (env_ok 100) "r" f false x
                  (pub (mkRepo {[ "new_repository" := File (FData "") ]} None))
                  = (inr tt, w') /\
                w' !! TTL_FILENAME = Some (File (FTTL {[ "new_repository" := x ]}))).
Proof.
  apply (update_ttl_without_index_fails (env_ok 100) "r" "new_repository" 50 st_fresh
           (mkRepo {[ "new_repository" := File (FData "") ]} None));
    try reflexivity.
  - discriminate.
  - vm_compute. eauto.
Defined.

(** C7 (code_bug): the 500 answers of update_ttl and clean carry the text
    of the internal exception, while those of upload and delete are the
    fixed strings "Failed to upload file" and "Failed to delete file".
    Here update_ttl on the fresh repository (no index yet) and clean on a
    repository whose ttl.json is not a TTL mapping. *)
Theorem error_detail_leaks :
  (update_ttl (env_ok 100) "r" "new_repository" 50 st_fresh).1 =
    inl (HTTPException 500 ("Failed to update TTL for file: new_repository: " +:+
                            str_of_exn (FileNotFoundError "/cvmfs/r/ttl.json"))) /\
  (clean (env_ok 100) "r" st_bad_index).1 =
    inl (HTTPException 500 ("Failed to clean up expired files: " +:+
                            str_of_exn JSONDecodeError)) /\
  (delete_artifact (env_ok 100) "r" "new_repository" st_fresh).1 =
    inl (HTTPException 500 "Failed to delete file") /\
  (upload (mkEnv 100 true true true true (inl "invalid image") 1 2) "r"
          file_a true false 10 st_fresh).1 =
    inl (HTTPException 500 "Failed to upload file").
Proof. repeat split; vm_compute; reflexivity. Qed.

(** C4 (counterexample): the listing of a repository holding an index
    contains the reserved name ttl.json. *)
Lemma list_files_shows_index :
  list_files "r" st_a = inr [("files", JList ["a"; "new_repository"; "ttl.json"])] /\
  TTL_FILENAME ∈ ["a"; "new_repository"; "ttl.json"].
Proof.
  split.
  - vm_compute. reflexivity.
  - apply list_elem_of_In. simpl. auto.
Qed.

(** C4 (amended): list_files answers 404 for a missing repository and
    otherwise lists exactly the names of the immediate entries that are
    regular files, the index file ttl.json included when present. *)
Theorem list_files_lists_regular_files r st :
  match repos st !! r with
  | None => list_files r st = inl (HTTPException 404 ("Repo " +:+ r +:+ " does not exist"))
  | Some R => exists l, list_files r st = inr [("files", JList l)] /\
               forall x, x ∈ l <-> exists c, view R !! x = Some (File c)
  end.
Proof.
  unfold list_files. destruct (repos st !! r) as [R|]; [|reflexivity].
  eexists. split; [reflexivity|]. intros x.
  rewrite list_elem_of_In, in_map_iff. split.
  - intros [[k v] [Hk Hin]]. simpl in Hk. subst k.
    apply list_elem_of_In, list_elem_of_filter in Hin as [Hf Hin].
    apply elem_of_map_to_list in Hin. destruct v as [c|l]; simpl in Hf.
    + eauto.
    + discriminate.
  - intros [c Hc]. exists (x, File c). split; [reflexivity|].
    apply list_elem_of_In, list_elem_of_filter. split; [reflexivity|].
    apply elem_of_map_to_list. exact Hc.
Qed.

(* ------------------------------------------------------------------ *)
(** * The expiry sweep *)

Lemma lookup_delete_keys_None {A} (ks : list string) (m : gmap string A) k :
  m !! k = None -> delete_keys ks m !! k = None.
Proof.
  revert m. induction ks as [|k' ks IH]; intros m Hm; simpl; [exact Hm|].
  apply IH. apply lookup_delete_None. right. exact Hm.
Qed.

Lemma lookup_delete_keys_in {A} (ks : list string) (m : gmap string A) k :
  k ∈ ks -> delete_keys ks m !! k = None.
Proof.
  revert m. induction ks as [|k' ks IH]; intros m Hin; simpl.
  - apply not_elem_of_nil in Hin. contradiction.
  - apply elem_of_cons in Hin as [->|Hin].
    + apply lookup_delete_keys_None, lookup_delete_eq.
    + apply IH, Hin.
Qed.

Lemma lookup_delete_keys_notin {A} (ks : list string) (m : gmap string A) k :
  k ∉ ks -> delete_keys ks m !! k = m !! k.
Proof.
  revert m. induction ks as [|k' ks IH]; intros m Hin; simpl; [reflexivity|].
  rewrite elem_of_cons in Hin. rewrite IH by tauto.
  apply lookup_delete_ne. intros ->. tauto.
Qed.

Lemma length_filter_ext_in {A} (P Q : A -> Prop)
    `{!forall x, Decision (P x)} `{!forall x, Decision (Q x)} (l : list A) :
  (forall x, x ∈ l -> P x <-> Q x) ->
  length (filter P l) = length (filter Q l).
Proof.
  induction l as [|a l IH]; intros HPQ; [reflexivity|].
  assert (Hl : forall x, x ∈ l -> P x <-> Q x)
    by (intros x Hx; apply HPQ; right; exact Hx).
  assert (Ha : P a <-> Q a) by (apply HPQ; left).
  rewrite !filter_cons.
  destruct (decide (P a)) as [Hp|Hp], (decide (Q a)) as [Hq|Hq]; simpl.
  - f_equal. apply IH, Hl.
  - exfalso. apply Hq, Ha, Hp.
  - exfalso. apply Hp, Ha, Hq.
  - apply IH, Hl.
Qed.

Lemma key_in_fmap_fst (l : list (string * Z)) k x :
  (k, x) ∈ l -> k ∈ l.*1.
Proof. intros H. apply (list_elem_of_fmap_2 fst l (k, x)), H. Qed.

Lemma count_present_delete t w k l :
  k ∉ l.*1 -> count_present t (delete k w) l = count_present t w l.
Proof.
  intros Hk. unfold count_present. apply length_filter_ext_in.
  intros [k' x] Hin. simpl. rewrite lookup_delete_ne; [reflexivity|].
  intros ->. apply Hk. eapply key_in_fmap_fst; exact Hin.
Qed.

Lemma count_absent_delete t w k l :
  k ∉ l.*1 -> count_absent t (delete k w) l = count_absent t w l.
Proof.
  intros Hk. unfold count_absent. apply length_filter_ext_in.
  intros [k' x] Hin. simpl. rewrite lookup_delete_ne; [reflexivity|].
  intros ->. apply Hk. eapply key_in_fmap_fst; exact Hin.
Qed.

Lemma bind_path_exists {A} n (f : bool -> B A) w :
  bind (path_exists n) f w = f (bool_decide (is_Some (w !! n))) w.
Proof. reflexivity. Qed.

Lemma bind_ret {A C} (a : A) (f : A -> B C) w : bind (ret a) f w = f a w.
Proof. reflexivity. Qed.

Lemma bind_assoc {A C D} (m : B A) (f : A -> B C) (g : C -> B D) w :
  bind (bind m f) g w = bind m (fun a => bind (f a) g) w.
Proof. unfold bind. destruct (m w) as [[ex|a] w']; reflexivity. Qed.

Lemma bind_remove_target {A} r n (f : unit -> B A) w :
  is_Some (w !! n) -> bind (remove_target r n) f w = f tt (delete n w).
Proof. intros H. unfold bind at 1. rewrite remove_target_ok by exact H. reflexivity. Qed.

(** The loop over a snapshot with distinct names never raises: it deletes
    the artifact and the index entry of every expired name, counting the
    present and the absent ones. *)
Lemma clean_loop_spec e r (l : list (string * Z)) :
  NoDup l.*1 -> forall c er (m0 : gmap string Z) (w : gmap string entry),
  clean_loop e r l (c, er, m0) w =
    (inr ((c + count_present (now e) w l)%nat, (er + count_absent (now e) w l)%nat,
          delete_keys (expired_keys (now e) l) m0),
     delete_keys (expired_keys (now e) l) w).
Proof.
  induction l as [|[k x] l IH]; intros Hnd c er m0 w.
  - simpl. unfold ret, count_present, count_absent. simpl. rewrite !Nat.add_0_r. reflexivity.
  - rewrite fmap_cons in Hnd. apply NoDup_cons in Hnd as [Hk Hnd]. simpl in Hk.
    unfold count_present, count_absent, expired_keys. rewrite !filter_cons.
    cbn [clean_loop fst snd].
    destruct (x <? now e) eqn:Hx.
    + apply Z.ltb_lt in Hx.
      destruct (decide (x < now e)) as [_|Hn]; [|lia].
      rewrite fmap_cons. cbn [delete_keys fst].
      rewrite bind_path_exists.
      destruct (w !! k) as [v|] eqn:Hw.
      * rewrite bool_decide_true by eauto.
        destruct (decide (x < now e /\ is_Some (Some v))) as [_|Hn];
          [|exfalso; apply Hn; split; [exact Hx|eauto]].
        destruct (decide (x < now e /\ ~ is_Some (Some v))) as [[_ Hn]|_];
          [exfalso; apply Hn; eauto|].
        rewrite bind_assoc, bind_remove_target by (rewrite Hw; eauto).
        rewrite bind_ret. cbn [fst snd]. rewrite IH by exact Hnd.
        rewrite count_present_delete, count_absent_delete by exact Hk.
        unfold count_present, count_absent, expired_keys.
        cbn [length]. rewrite <- !plus_n_Sm. reflexivity.
      * rewrite bool_decide_false by (intros [? ?]; discriminate).
        destruct (decide (x < now e /\ is_Some (@None entry))) as [[_ [? Hn]]|_];
          [discriminate|].
        destruct (decide (x < now e /\ ~ is_Some (@None entry))) as [_|Hn];
          [|exfalso; apply Hn; split; [exact Hx|intros [? ?]; discriminate]].
        rewrite bind_ret. cbn [fst snd]. rewrite IH by exact Hnd.
        rewrite (delete_id w k Hw).
        unfold count_present, count_absent, expired_keys.
        cbn [length]. rewrite <- !plus_n_Sm. reflexivity.
    + apply Z.ltb_ge in Hx.
      destruct (decide (x < now e)) as [Hn|_]; [lia|].
      destruct (decide (x < now e /\ is_Some (w !! k))) as [[Hn _]|_]; [lia|].
      destruct (decide (x < now e /\ ~ is_Some (w !! k))) as [[Hn _]|_]; [lia|].
      apply IH, Hnd.
Qed.

Lemma elem_of_expired_keys t (m : gmap string Z) k :
  k ∈ expired_keys t (map_to_list m) <-> exists x, m !! k = Some x /\ x < t.
Proof.
  unfold expired_keys. rewrite list_elem_of_fmap. split.
  - intros [[k' x] [Hk Hin]]. simpl in Hk. subst k'.
    apply list_elem_of_filter in Hin as [Hx Hin].
    apply elem_of_map_to_list in Hin. eauto.
  - intros [x [Hk Hx]]. exists (k, x). split; [reflexivity|].
    apply list_elem_of_filter. split; [exact Hx|].
    apply elem_of_map_to_list. exact Hk.
Qed.

Lemma clean_body_ok e r w m :
  w !! TTL_FILENAME = Some (File (FTTL m)) ->
  clean_body e r w =
    (inr (count_present (now e) w (map_to_list m), count_absent (now e) w (map_to_list m)),
     <[TTL_FILENAME := File (FTTL (delete_keys (expired_keys (now e) (map_to_list m)) m))]>
       (delete_keys (expired_keys (now e) (map_to_list m)) w)).
Proof.
  intros Hw. unfold clean_body. unfold bind at 1, load_ttl. rewrite Hw.
  unfold bind at 1. rewrite clean_loop_spec by apply NoDup_fst_map_to_list.
  unfold bind, write_file. cbn [fst snd].
  destruct (decide (TTL_FILENAME ∈ expired_keys (now e) (map_to_list m))) as [Hin|Hin].
  - rewrite lookup_delete_keys_in by exact Hin. reflexivity.
  - rewrite lookup_delete_keys_notin by exact Hin. rewrite Hw. reflexivity.
Qed.

(** A successful clean of a repository whose ttl.json exists: the index was
    a TTL mapping, and the published tree is the result of the sweep. *)
Lemma clean_success e r st resp st' :
  file_exists st r TTL_FILENAME = true ->
  clean e r st = (inr resp, st') ->
  exists R m, repos st !! r = Some R /\ work R = None /\
    pub R !! TTL_FILENAME = Some (File (FTTL m)) /\
    resp = [("message", JStr (clean_message r (count_present (now e) (pub R) (map_to_list m))
                                              (count_absent (now e) (pub R) (map_to_list m))))] /\
    repos st' =
      <[r := mkRepo (<[TTL_FILENAME := File (FTTL (delete_keys (expired_keys (now e) (map_to_list m)) m))]>
                       (delete_keys (expired_keys (now e) (map_to_list m)) (pub R))) None]> (repos st).
Proof.
  intros Hf. unfold clean. rewrite Hf. simpl.
  destruct (transact _ _ _ _ _) as [[er|ce] st1] eqn:HT; intros Heq; inversion Heq; subst.
  apply transact_ok in HT as (R & w' & HR & HW & Hb & Hrep).
  destruct (pub R !! TTL_FILENAME) as [[[d|m]|l]|] eqn:Ht;
    try (unfold clean_body, bind, load_ttl in Hb; rewrite Ht in Hb; discriminate).
  rewrite (clean_body_ok e r (pub R) m Ht) in Hb. inversion Hb; subst.
  exists R, m. repeat split; assumption.
Qed.

(** C3: a successful clean of a repository with a TTL index (and no open
    transaction) removes, for every index entry whose expires_at is
    strictly before now, both the entry and the artifact (the artifact was
    present: counted in cleaned; absent: counted in errors), and leaves
    every other entry and its artifact as they were.  The index holds no
    entry for ttl.json itself, as in every state the store produces. *)
Theorem clean_removes_expired e r st resp st' R m :
  repos st !! r = Some R -> work R = None ->
  pub R !! TTL_FILENAME = Some (File (FTTL m)) -> m !! TTL_FILENAME = None ->
  clean e r st = (inr resp, st') ->
  exists R' m', repos st' !! r = Some R' /\ work R' = None /\
    pub R' !! TTL_FILENAME = Some (File (FTTL m')) /\
    resp = [("message", JStr (clean_message r (count_present (now e) (pub R) (map_to_list m))
                                              (count_absent (now e) (pub R) (map_to_list m))))] /\
    (forall k x, m !! k = Some x -> x < now e -> m' !! k = None /\ pub R' !! k = None) /\
    (forall k x, m !! k = Some x -> ~ x < now e ->
                 m' !! k = Some x /\ pub R' !! k = pub R !! k) /\
    (forall k, m !! k = None -> m' !! k = None).
Proof.
  intros HR HW Ht Hm Hc.
  assert (Hf : file_exists st r TTL_FILENAME = true)
    by (apply (file_exists_true st r _ R HR HW); rewrite Ht; eauto).
  destruct (clean_success e r st resp st' Hf Hc) as (R0 & m0 & HR0 & _ & Ht0 & Hresp & Hrep).
  rewrite HR in HR0. injection HR0 as <-. rewrite Ht in Ht0. injection Ht0 as <-.
  set (ek := expired_keys (now e) (map_to_list m)) in *.
  eexists _, _. rewrite Hrep, lookup_insert_eq. split; [reflexivity|]. cbn [pub work].
  split; [reflexivity|]. split; [apply lookup_insert_eq|]. split; [exact Hresp|].
  split; [|split].
  - intros k x Hk Hx.
    assert (Hin : k ∈ ek) by (apply elem_of_expired_keys; eauto).
    split; [apply lookup_delete_keys_in, Hin|].
    rewrite lookup_insert_ne by (intros Heq; subst k; congruence).
    apply lookup_delete_keys_in, Hin.
  - intros k x Hk Hx.
    assert (Hin : k ∉ ek).
    { intros Hin. apply elem_of_expired_keys in Hin as (x' & Hk' & Hx').
      rewrite Hk in Hk'. injection Hk' as <-. contradiction. }
    rewrite lookup_delete_keys_notin by exact Hin. split; [exact Hk|].
    rewrite lookup_insert_ne by (intros Heq; subst k; congruence).
    apply lookup_delete_keys_notin, Hin.
  - intros k Hk. apply lookup_delete_keys_None, Hk.
Qed.

(** The repository holding a (expiring at 110), swept at time 1000. *)
Lemma clean_removes_expired_witness :
  exists R' m', repos (clean (env_ok 1000) "r" st_a).2 !! "r" = Some R' /\ work R' = None /\
    pub R' !! TTL_FILENAME = Some (File (FTTL m')) /\
    ([("message", JStr "Cleaned up 1 expired files in repo: r. Errors: 0")] : response) =
      [("message", JStr (clean_message "r"
                           (count_present (now (env_ok 1000)) (pub R_a) (map_to_list index_a))
                           (count_absent (now (env_ok 1000)) (pub R_a) (map_to_list index_a))))] /\
    (forall k x, index_a !! k = Some x -> x < now (env_ok 1000) ->
                 m' !! k = None /\ pub R' !! k = None) /\
    (forall k x, index_a !! k = Some x -> ~ x < now (env_ok 1000) ->
                 m' !! k = Some x /\ pub R' !! k = pub R_a !! k) /\
    (forall k, index_a !! k = None -> m' !! k = None).
Proof.
  apply (clean_removes_expired (env_ok 1000) "r" st_a
           [("message", JStr "Cleaned up 1 expired files in repo: r. Errors: 0")]
           (clean (env_ok 1000) "r" st_a).2 R_a index_a).
  all: first [ reflexivity
             | vm_compute; reflexivity
             | rewrite (surjective_pairing (clean (env_ok 1000) "r" st_a));
               f_equal; vm_compute; reflexivity ].
Defined.

(** C6 (counterexample): the answer of a successful clean is a single
    message field; there is no cleaned field and no errors field. *)
Lemma clean_answer_has_only_message :
  (clean (env_ok 1000) "r" st_a).1 =
    inr [("message", JStr "Cleaned up 1 expired files in repo: r. Errors: 0")] /\
  "cleaned" ∉ ([("message", JStr "Cleaned up 1 expired files in repo: r. Errors: 0")] : response).*1.
Proof.
  split.
  - vm_compute. reflexivity.
  - simpl. rewrite elem_of_cons. intros [H|H]; [discriminate|].
    apply not_elem_of_nil in H. exact H.
Qed.

(** C6 (amended): a successful clean of a repository with a TTL index (and
    no open transaction) answers with the single field message,
    "Cleaned up <cleaned> expired files in repo: <repo>. Errors: <errors>",
    where cleaned counts the expired entries whose artifact was present and
    errors those whose artifact was missing. *)
Theorem clean_reports_counts_in_message e r st resp st' R m :
  repos st !! r = Some R -> work R = None ->
  pub R !! TTL_FILENAME = Some (File (FTTL m)) ->
  clean e r st = (inr resp, st') ->
  resp = [("message", JStr (clean_message r (count_present (now e) (pub R) (map_to_list m))
                                            (count_absent (now e) (pub R) (map_to_list m))))].
Proof.
  intros HR HW Ht Hc.
  assert (Hf : file_exists st r TTL_FILENAME = true)
    by (apply (file_exists_true st r _ R HR HW); rewrite Ht; eauto).
  destruct (clean_success e r st resp st' Hf Hc) as (R0 & m0 & HR0 & _ & Ht0 & Hresp & _).
  rewrite HR in HR0. injection HR0 as <-. rewrite Ht in Ht0. injection Ht0 as <-.
  exact Hresp.
Qed.

Lemma clean_reports_counts_in_message_witness :
  ([("message", JStr "Cleaned up 0 expired files in repo: r. Errors: 1")] : response) =
    [("message", JStr (clean_message "r"
        (count_present (now (env_ok 1000)) (pub R_stale) (map_to_list index_b))
        (count_absent (now (env_ok 1000)) (pub R_stale) (map_to_list index_b))))].
Proof.
  apply (clean_reports_counts_in_message (env_ok 1000) "r" st_stale
           [("message", JStr "Cleaned up 0 expired files in repo: r. Errors: 1")]
           (clean (env_ok 1000) "r" st_stale).2 R_stale index_b).
  all: first [ reflexivity
             | vm_compute; reflexivity
             | rewrite (surjective_pairing (clean (env_ok 1000) "r" st_stale));
               f_equal; vm_compute; reflexivity ].
Defined.

(* ------------------------------------------------------------------ *)
(** * Sequences of requests *)

(** C2 (counterexample): from the freshly provisioned repository, the
    successful requests upload a and update_ttl new_repository leave an index
    entry for new_repository, which was never uploaded through the store. *)
Lemma index_names_not_uploaded :
  all_succeed trace_untracked st_fresh = true /\
  ("new_repository" ∈ index_names (run_trace trace_untracked st_fresh) "r") /\
  ("new_repository" ∉ uploaded_live "r" trace_untracked st_fresh ∅) /\
  index_names (run_trace trace_untracked st_fresh) "r" <> uploaded_live "r" trace_untracked st_fresh ∅.
Proof.
  assert (H1 : "new_repository" ∈ index_names (run_trace trace_untracked st_fresh) "r")
    by (apply (bool_decide_eq_true_1 _); vm_compute; reflexivity).
  assert (H2 : "new_repository" ∉ uploaded_live "r" trace_untracked st_fresh ∅)
    by (apply (bool_decide_eq_false_1 _); vm_compute; reflexivity).
  split; [vm_compute; reflexivity|]. split; [exact H1|]. split; [exact H2|].
  intros Heq. rewrite Heq in H1. contradiction.
Qed.

(** Requests on one repository leave every other repository alone. *)
Lemma run_op_other e o st r :
  match o with
  | OpUpload r' _ _ _ _ | OpUpdateTTL r' _ _ | OpDelete r' _ | OpClean r' => r' <> r
  end ->
  repos (run_op e o st).2 !! r = repos st !! r.
Proof.
  destruct o as [r' f u ov t | r' n t | r' n | r']; intros Hne; simpl.
  - unfold upload.
    destruct (in_blacklist (filename f)); [reflexivity|].
    destruct (negb _); [reflexivity|].
    destruct (negb ov && _); [reflexivity|].
    destruct (transact _ _ _ _ _) as [res st1] eqn:HT.
    rewrite <- (transact_other _ _ _ _ _ _ _ r HT) by congruence.
    destruct res; reflexivity.
  - unfold update_ttl.
    destruct (in_blacklist n); [reflexivity|].
    destruct (negb _); [reflexivity|].
    destruct (transact _ _ _ _ _) as [res st1] eqn:HT.
    rewrite <- (transact_other _ _ _ _ _ _ _ r HT) by congruence.
    destruct res; reflexivity.
  - unfold delete_artifact.
    destruct (in_blacklist n); [reflexivity|].
    destruct (negb _); [reflexivity|].
    destruct (transact _ _ _ _ _) as [res st1] eqn:HT.
    rewrite <- (transact_other _ _ _ _ _ _ _ r HT) by congruence.
    destruct res; reflexivity.
  - unfold clean.
    destruct (negb _); [reflexivity|].
    destruct (transact _ _ _ _ _) as [res st1] eqn:HT.
    rewrite <- (transact_other _ _ _ _ _ _ _ r HT) by congruence.
    destruct res; reflexivity.
Qed.

Lemma upload_body_ok e r f u x w a w' :
  filename f <> TTL_FILENAME ->
  upload_body e r f u x w = (inr a, w') ->
  w' !! TTL_FILENAME = Some (File (FTTL (<[filename f := x]> (index_or_empty w)))) /\
  is_Some (w' !! filename f) /\
  (forall k, k <> filename f -> k <> TTL_FILENAME -> w' !! k = w !! k).
Proof.
  intros Hne Hb. unfold upload_body, bind, path_exists, ret in Hb.
  set (n := filename f) in *.
  assert (Hrm : exists w1, (if bool_decide (is_Some (w !! n)) then remove_target r n else (fun w => (inr tt, w))) w = (inr tt, w1) /\ w1 !! n = None /\ (forall k, k <> n -> w1 !! k = w !! k)
     \/ exists ex, (if bool_decide (is_Some (w !! n)) then remove_target r n else (fun w => (inr tt, w))) w = (inl ex, w1)).
  { clear Hb. destruct (w !! n) as [E|] eqn:Hw.
    - rewrite bool_decide_true by eauto. exists (delete n w). left.
      unfold remove_target, bind, is_dir. rewrite Hw. unfold rmtree, unlink.
      destruct E; rewrite Hw; (split; [reflexivity|]);
        (split; [apply lookup_delete_eq|]); intros k Hk; apply lookup_delete_ne; congruence.
    - rewrite bool_decide_false by (intros [? ?]; discriminate). exists w. left.
      split; [reflexivity|]. split; [exact Hw|]. reflexivity. }
  destruct Hrm as [w1 [[Hr [Hn Hk]] | [ex Hr]]]; rewrite Hr in Hb; [|discriminate].
  clear Hr.
  assert (Hw2 : exists w2, (if u then match unpack_result e with
                  | inl msg => raise (ExtError msg)
                  | inr l => unpack_into n l end
                  else write_file r n (FData (data f))) w1 = (inr tt, w2) /\ is_Some (w2 !! n) /\
                  (forall k, k <> n -> w2 !! k = w1 !! k)
                \/ exists ex, (if u then match unpack_result e with
                  | inl msg => raise (ExtError msg)
                  | inr l => unpack_into n l end
                  else write_file r n (FData (data f))) w1 = (inl ex, w2)).
  { destruct u.
    - destruct (unpack_result e) as [msg|l].
      + exists w1. right. eauto.
      + exists (<[n := Dir l]> w1). left. split; [reflexivity|].
        rewrite lookup_insert_eq. split; [eauto|]. intros k Hk'; apply lookup_insert_ne; congruence.
    - exists (<[n := File (FData (data f))]> w1). left. unfold write_file. rewrite Hn.
      split; [reflexivity|].
      rewrite lookup_insert_eq. split; [eauto|]. intros k Hk'; apply lookup_insert_ne; congruence. }
  destruct Hw2 as [w2 [[Hr [Hn2 Hk2]] | [ex Hr]]].
  2: { rewrite Hr in Hb. discriminate. }
  rewrite Hr in Hb. clear Hr.
  assert (Ht : w2 !! TTL_FILENAME = w !! TTL_FILENAME) by (rewrite Hk2, Hk; congruence).
  unfold index_or_empty. rewrite <- Ht.
  destruct (w2 !! TTL_FILENAME) as [[[d|m]|l]|] eqn:Hw2t.
  - rewrite bool_decide_true in Hb by eauto. unfold load_ttl in Hb. rewrite Hw2t in Hb. discriminate.
  - rewrite bool_decide_true in Hb by eauto. unfold load_ttl, write_file in Hb.
    rewrite Hw2t in Hb. cbv beta iota in Hb. rewrite ?Hw2t in Hb.
    injection Hb as Ha Hw'; subst w'. rewrite lookup_insert_eq. split; [reflexivity|].
    rewrite lookup_insert_ne by congruence. split; [exact Hn2|].
    intros k H1 H2. rewrite lookup_insert_ne, Hk2, Hk by congruence. reflexivity.
  - rewrite bool_decide_true in Hb by eauto. unfold load_ttl in Hb. rewrite Hw2t in Hb. discriminate.
  - rewrite bool_decide_false in Hb by (intros [? ?]; discriminate). unfold write_file in Hb.
    cbv beta iota in Hb. rewrite ?Hw2t in Hb.
    injection Hb as Ha Hw'; subst w'. rewrite lookup_insert_eq. split; [reflexivity|].
    rewrite lookup_insert_ne by congruence. split; [exact Hn2|].
    intros k H1 H2. rewrite lookup_insert_ne, Hk2, Hk by congruence. reflexivity.
Qed.

Lemma in_blacklist_neq n : in_blacklist n = false -> n <> TTL_FILENAME.
Proof.
  intros H ->. discriminate H.
Qed.

Lemma index_inv_upload e r f u ov t st T resp st' :
  index_inv r st T -> upload e r f u ov t st = (inr resp, st') ->
  index_inv r st' (T ∪ {[ filename f ]}).
Proof.
  intros (R & HR & HW & Hidx) Hrun. unfold upload in Hrun.
  destruct (in_blacklist (filename f)) eqn:Hbl; [inversion Hrun|].
  apply in_blacklist_neq in Hbl.
  destruct (negb _); [inversion Hrun|].
  destruct (negb ov && _); [inversion Hrun|].
  destruct (transact _ _ _ _ _) as [[er|a] st1] eqn:HT; inversion Hrun; subst; clear Hrun.
  apply transact_ok in HT as (R0 & w' & HR0 & _ & Hb & Hrep).
  rewrite HR in HR0. injection HR0 as <-.
  apply upload_body_ok in Hb as (Ht & Hn & Hk); [|exact Hbl].
  exists (mkRepo w' None). rewrite Hrep, lookup_insert_eq. split; [reflexivity|].
  split; [reflexivity|]. right. simpl.
  exists (<[filename f := now e + t]> (index_or_empty (pub R))). split; [exact Ht|].
  unfold index_or_empty.
  destruct Hidx as [[Hnone HT] | (m & Hm & Hdom & HmT & Hpres)].
  - rewrite Hnone. rewrite dom_insert_L, dom_empty_L. split; [set_solver|].
    split; [rewrite lookup_insert_ne by congruence; reflexivity|].
    intros k Hin. apply elem_of_union in Hin as [Hin|Hin]; [set_solver|].
    apply elem_of_singleton in Hin. subst k. exact Hn.
  - rewrite Hm. rewrite dom_insert_L. split; [set_solver|].
    split; [rewrite lookup_insert_ne by congruence; exact HmT|].
    intros k Hin. apply elem_of_union in Hin as [Hin|Hin].
    + destruct (decide (k = filename f)) as [->|Hkn]; [exact Hn|].
      assert (HkT : k <> TTL_FILENAME).
      { intros ->. apply Hdom in Hin. apply elem_of_dom in Hin. rewrite HmT in Hin.
        destruct Hin as [? ?]; discriminate. }
      rewrite Hk by assumption. apply Hpres, Hin.
    + apply elem_of_singleton in Hin. subst k. exact Hn.
Qed.

Lemma index_inv_update_ttl e r n t st T resp st' :
  index_inv r st T -> update_ttl e r n t st = (inr resp, st') ->
  index_inv r st' (T ∪ {[ n ]}).
Proof.
  intros (R & HR & HW & Hidx) Hrun. unfold update_ttl in Hrun.
  destruct (in_blacklist n) eqn:Hbl; [inversion Hrun|].
  apply in_blacklist_neq in Hbl.
  destruct (file_exists st r n) eqn:Hfe; [|inversion Hrun]. simpl in Hrun.
  assert (Hn : is_Some (pub R !! n)).
  { unfold file_exists, view in Hfe. rewrite HR, HW in Hfe.
    apply bool_decide_eq_true in Hfe. exact Hfe. }
  destruct (transact _ _ _ _ _) as [[er|a] st1] eqn:HT; inversion Hrun; subst; clear Hrun.
  apply transact_ok in HT as (R0 & w' & HR0 & _ & Hb & Hrep).
  rewrite HR in HR0. injection HR0 as <-.
  unfold update_ttl_body, bind, load_ttl in Hb.
  destruct Hidx as [[Hnone _] | (m & Hm & Hdom & HmT & Hpres)].
  { rewrite Hnone in Hb. discriminate. }
  rewrite Hm in Hb. unfold write_file in Hb. rewrite Hm in Hb.
  injection Hb as _ <-.
  exists (mkRepo (<[TTL_FILENAME := File (FTTL (<[n := now e + t]> m))]> (pub R)) None).
  rewrite Hrep, lookup_insert_eq. split; [reflexivity|]. split; [reflexivity|].
  right. simpl. exists (<[n := now e + t]> m). rewrite lookup_insert_eq.
  split; [reflexivity|]. rewrite dom_insert_L. split; [set_solver|].
  split; [rewrite lookup_insert_ne by congruence; exact HmT|].
  intros k Hin. destruct (decide (k = TTL_FILENAME)) as [->|HkT].
  { rewrite lookup_insert_eq. eauto. }
  rewrite lookup_insert_ne by congruence.
  apply elem_of_union in Hin as [Hin|Hin]; [apply Hpres, Hin|].
  apply elem_of_singleton in Hin. subst k. exact Hn.
Qed.

Lemma index_inv_delete e r n st T resp st' :
  index_inv r st T -> delete_artifact e r n st = (inr resp, st') ->
  index_inv r st' (T ∖ {[ n ]}).
Proof.
  intros (R & HR & HW & Hidx) Hrun. unfold delete_artifact in Hrun.
  destruct (in_blacklist n) eqn:Hbl; [inversion Hrun|].
  apply in_blacklist_neq in Hbl.
  destruct (file_exists st r n) eqn:Hfe; [|inversion Hrun]. simpl in Hrun.
  assert (Hn : is_Some (pub R !! n)).
  { unfold file_exists, view in Hfe. rewrite HR, HW in Hfe.
    apply bool_decide_eq_true in Hfe. exact Hfe. }
  destruct (transact _ _ _ _ _) as [[er|a] st1] eqn:HT; inversion Hrun; subst; clear Hrun.
  apply transact_ok in HT as (R0 & w' & HR0 & _ & Hb & Hrep).
  rewrite HR in HR0. injection HR0 as <-.
  unfold delete_body in Hb. rewrite bind_remove_target in Hb by exact Hn.
  unfold bind, load_ttl in Hb. rewrite lookup_delete_ne in Hb by congruence.
  destruct Hidx as [[Hnone _] | (m & Hm & Hdom & HmT & Hpres)].
  { rewrite Hnone in Hb. discriminate. }
  rewrite Hm in Hb. destruct (m !! n) as [x|] eqn:Hmn; [|discriminate].
  unfold write_file in Hb. rewrite lookup_delete_ne, Hm in Hb by congruence.
  injection Hb as _ <-.
  exists (mkRepo (<[TTL_FILENAME := File (FTTL (delete n m))]> (delete n (pub R))) None).
  rewrite Hrep, lookup_insert_eq. split; [reflexivity|]. split; [reflexivity|].
  right. simpl. exists (delete n m). rewrite lookup_insert_eq.
  split; [reflexivity|]. rewrite dom_delete_L. split; [set_solver|].
  split; [rewrite lookup_delete_ne by congruence; exact HmT|].
  intros k Hin. apply elem_of_difference in Hin as [Hin Hkn].
  apply not_elem_of_singleton in Hkn.
  destruct (decide (k = TTL_FILENAME)) as [->|HkT].
  { rewrite lookup_insert_eq. eauto. }
  rewrite lookup_insert_ne, lookup_delete_ne by congruence. apply Hpres, Hin.
Qed.

Lemma index_inv_clean e r st T resp st' :
  index_inv r st T -> clean e r st = (inr resp, st') ->
  index_inv r st' (T ∖ (published_names st r ∖ published_names st' r)).
Proof.
  intros Hinv Hrun.
  destruct (file_exists st r TTL_FILENAME) eqn:Hfe.
  2: { unfold clean in Hrun. rewrite Hfe in Hrun. simpl in Hrun.
       injection Hrun as _ <-. destruct Hinv as (R & HR & HW & Hidx).
       exists R. split; [exact HR|]. split; [exact HW|].
       assert (Hsame : T ∖ (published_names st r ∖ published_names st r) ≡ T) by set_solver.
       destruct Hidx as [[Hnone HT] | (m & Hm & Hdom & HmT & Hpres)].
       - left. split; [exact Hnone|]. rewrite Hsame. exact HT.
       - right. exists m. rewrite Hsame. split; [exact Hm|]. split; [exact Hdom|]. split; [exact HmT|]. intros k Hk. apply Hpres. set_solver. }
  destruct Hinv as (R & HR & HW & Hidx).
  apply (clean_success e r st resp st' Hfe) in Hrun
    as (R0 & m0 & HR0 & _ & Hm0 & _ & Hrep).
  rewrite HR in HR0. injection HR0 as <-.
  destruct Hidx as [[Hnone _] | (m & Hm & Hdom & HmT & Hpres)].
  { rewrite Hnone in Hm0. discriminate. }
  rewrite Hm in Hm0. injection Hm0 as <-.
  set (E := expired_keys (now e) (map_to_list m)) in *.
  set (w' := <[TTL_FILENAME := File (FTTL (delete_keys E m))]> (delete_keys E (pub R))).
  assert (Hpn : published_names st r = dom (pub R))
    by (unfold published_names; rewrite HR; reflexivity).
  assert (Hpn' : published_names st' r = dom w')
    by (unfold published_names; rewrite Hrep, lookup_insert_eq; reflexivity).
  assert (HkT : forall k, k ∈ T -> k <> TTL_FILENAME).
  { intros k Hin ->. apply Hdom in Hin. apply elem_of_dom in Hin. rewrite HmT in Hin.
    destruct Hin as [? ?]; discriminate. }
  assert (Hkeep : forall k, k <> TTL_FILENAME -> k ∉ E -> w' !! k = pub R !! k).
  { intros k H1 H2. unfold w'. rewrite lookup_insert_ne by congruence.
    apply lookup_delete_keys_notin, H2. }
  assert (HE : forall k, k ∈ T -> (k ∈ E <-> k ∈ published_names st r ∖ published_names st' r)).
  { intros k Hin. rewrite Hpn, Hpn', elem_of_difference, !elem_of_dom. split.
    - intros HkE. split; [apply Hpres, Hin|].
      unfold w'. rewrite lookup_insert_ne by (intros Heq; apply (HkT k Hin); congruence).
      rewrite lookup_delete_keys_in by exact HkE. intros [? ?]; discriminate.
    - intros [Hp Hnp]. destruct (decide (k ∈ E)) as [HkE|HkE]; [exact HkE|].
      exfalso. apply Hnp. rewrite Hkeep by (auto; apply HkT, Hin). exact Hp. }
  exists (mkRepo w' None). rewrite Hrep, lookup_insert_eq. split; [reflexivity|].
  split; [reflexivity|]. right. simpl. exists (delete_keys E m).
  split; [unfold w'; apply lookup_insert_eq|].
  assert (Hdom' : dom (delete_keys E m) ≡ T ∖ (published_names st r ∖ published_names st' r)).
  { intros k. rewrite elem_of_difference, elem_of_dom. split.
    - intros [x Hx]. destruct (decide (k ∈ E)) as [HkE|HkE].
      { rewrite lookup_delete_keys_in in Hx by exact HkE. discriminate. }
      rewrite lookup_delete_keys_notin in Hx by exact HkE.
      assert (Hin : k ∈ T) by (apply Hdom, elem_of_dom; eauto).
      split; [exact Hin|]. rewrite <- HE by exact Hin. exact HkE.
    - intros [Hin Hnd]. rewrite <- HE in Hnd by exact Hin.
      rewrite lookup_delete_keys_notin by exact Hnd.
      apply elem_of_dom, Hdom, Hin. }
  split; [exact Hdom'|].
  split; [apply lookup_delete_keys_None, HmT|].
  intros k Hin. apply Hdom' in Hin. apply elem_of_dom in Hin as [x Hx].
  destruct (decide (k ∈ E)) as [HkE|HkE].
  { rewrite lookup_delete_keys_in in Hx by exact HkE. discriminate. }
  rewrite lookup_delete_keys_notin in Hx by exact HkE.
  assert (HinT : k ∈ T) by (apply Hdom, elem_of_dom; eauto).
  rewrite Hkeep by (auto; apply HkT, HinT). apply Hpres, HinT.
Qed.

Lemma index_inv_same r st st' T :
  repos st' !! r = repos st !! r -> index_inv r st T -> index_inv r st' T.
Proof. intros Heq (R & HR & H). exists R. rewrite Heq. auto. Qed.

Lemma index_inv_step r e o st T resp :
  index_inv r st T -> (run_op e o st).1 = inr resp ->
  index_inv r (run_op e o st).2 (step_tracked r o st (run_op e o st).2 T).
Proof.
  intros Hinv Hres.
  assert (Hoth := run_op_other e o st r).
  destruct (run_op e o st) as [res st'] eqn:Hrun. simpl in Hres |- *. subst res.
  destruct o as [r' f u ov t | r' n t | r' n | r']; simpl in Hrun, Hoth |- *;
    destruct (String.eqb_spec r' r) as [->|Hne];
    try (apply (index_inv_same r st st'); [apply Hoth, Hne | exact Hinv]).
  - eapply index_inv_upload; eassumption.
  - eapply index_inv_update_ttl; eassumption.
  - eapply index_inv_delete; eassumption.
  - eapply index_inv_clean; eassumption.
Qed.

Lemma index_inv_trace r tr : forall st T,
  index_inv r st T -> all_succeed tr st = true ->
  index_inv r (run_trace tr st) (tracked r tr st T).
Proof.
  induction tr as [|[e o] tr IH]; intros st T Hinv Hall; simpl in *; [exact Hinv|].
  destruct (run_op e o st).1 as [er|resp] eqn:Hres; [discriminate|].
  apply IH; [|exact Hall]. eapply index_inv_step; eassumption.
Qed.

(** C2 (amended): starting from a repository with no index and no open
    transaction, after any sequence of successful requests the names of the
    published index are exactly those set by upload or update_ttl on that
    repository and not removed since by delete or by a sweep. *)
Theorem index_names_tracked tr st r R :
  repos st !! r = Some R -> work R = None -> pub R !! TTL_FILENAME = None ->
  all_succeed tr st = true ->
  index_names (run_trace tr st) r = tracked r tr st ∅.
Proof.
  intros HR HW Hnone Hall.
  assert (H0 : index_inv r st ∅) by (exists R; auto).
  destruct (index_inv_trace r tr st ∅ H0 Hall) as (R' & HR' & _ & Hidx).
  unfold index_names. rewrite HR'.
  destruct Hidx as [[Hn HT] | (m & Hm & Hdom & _)].
  - rewrite Hn. symmetry. apply leibniz_equiv, HT.
  - rewrite Hm. apply leibniz_equiv, Hdom.
Qed.

Lemma index_names_tracked_witness :
  repos st_fresh !! "r" = Some (mkRepo {[ "new_repository" := File (FData "") ]} None) /\
  index_names (run_trace trace_untracked st_fresh) "r" = tracked "r" trace_untracked st_fresh ∅.
Proof.
  split; [reflexivity|].
  apply (index_names_tracked trace_untracked st_fresh "r"
           (mkRepo {[ "new_repository" := File (FData "") ]} None));
    first [reflexivity | vm_compute; reflexivity].
Defined.

(* ------------------------------------------------------------------ *)
(** * Further properties of the endpoints *)

(** A transaction whose primitives succeed, on a repository with no open
    transaction, publishes what its body leaves and notifies. *)
Lemma transact_succeeds {A} e r (body : B A) f st R a w' :
  repos st !! r = Some R -> work R = None ->
  begin_ok e = true -> publish_ok e = true -> notify_ok e = true ->
  body (pub R) = (inr a, w') ->
  transact e r body f st =
    (inr a, mkState (<[r := mkRepo w' None]> (repos st))
                    (log st ++ [(Begin, r); (Publish, r); (Notify, r)])).
Proof.
  intros HR HW HB HP HN Hb. unfold transact, set_repo, log_call. rewrite HR, HW, HB, Hb, HP.
  unfold notify. simpl. rewrite lookup_insert_eq, HN. simpl.
  rewrite insert_insert_eq. unfold log_call. simpl. rewrite <- !app_assoc. reflexivity.
Qed.

Lemma upload_step_ok e r f u w E :
  upload_entry e f u = Some E -> w !! filename f = None ->
  (if u then match unpack_result e with
             | inl msg => raise (ExtError msg)
             | inr l => unpack_into (filename f) l
             end
   else write_file r (filename f) (FData (data f))) w = (inr tt, <[filename f := E]> w).
Proof.
  intros HE Hw. unfold upload_entry in HE. destruct u.
  - destruct (unpack_result e); [discriminate|]. injection HE as <-. reflexivity.
  - injection HE as <-. unfold write_file. rewrite Hw. reflexivity.
Qed.

Lemma upload_step_fail e r f u w :
  upload_entry e f u = None ->
  exists ex, (if u then match unpack_result e with
                        | inl msg => raise (ExtError msg)
                        | inr l => unpack_into (filename f) l
                        end
              else write_file r (filename f) (FData (data f))) w = (inl ex, w).
Proof.
  intros HE. unfold upload_entry in HE. destruct u; [|discriminate].
  destruct (unpack_result e) as [msg|]; [|discriminate]. exists (ExtError msg). reflexivity.
Qed.

(** Removing dest when it exists leaves [delete dest w]. *)
Lemma upload_remove_step {A} r n (k : unit -> B A) w :
  bind (if bool_decide (is_Some (w !! n)) then remove_target r n else ret tt) k w =
  k tt (delete n w).
Proof.
  destruct (w !! n) eqn:Hw.
  - rewrite bool_decide_true by eauto. apply bind_remove_target. rewrite Hw. eauto.
  - rewrite bool_decide_false by (intros [? ?]; discriminate).
    rewrite bind_ret, delete_id by exact Hw. reflexivity.
Qed.

Lemma upload_body_run e r f u x w E :
  filename f <> TTL_FILENAME -> upload_entry e f u = Some E ->
  (w !! TTL_FILENAME = None \/ exists m, w !! TTL_FILENAME = Some (File (FTTL m))) ->
  upload_body e r f u x w =
    (inr tt, <[TTL_FILENAME := File (FTTL (<[filename f := x]> (index_or_empty w)))]>
               (<[filename f := E]> w)).
Proof.
  intros Hne HE Hidx. unfold upload_body. rewrite bind_path_exists, upload_remove_step.
  unfold bind at 1. rewrite (upload_step_ok e r f u _ E HE) by apply lookup_delete_eq.
  rewrite bind_path_exists.
  rewrite lookup_insert_ne, lookup_delete_ne by congruence.
  rewrite insert_delete_eq. unfold index_or_empty.
  destruct Hidx as [Hn | [m Hm]].
  - rewrite Hn, bool_decide_false by (intros [? ?]; discriminate).
    rewrite bind_ret. unfold write_file. rewrite lookup_insert_ne, Hn by congruence. reflexivity.
  - rewrite Hm, bool_decide_true by eauto.
    unfold bind, load_ttl. rewrite lookup_insert_ne, Hm by congruence.
    unfold write_file. rewrite lookup_insert_ne, Hm by congruence. reflexivity.
Qed.

(** A successful upload body wrote an entry and had a readable index. *)
Lemma upload_body_inv e r f u x w a w' :
  filename f <> TTL_FILENAME ->
  upload_body e r f u x w = (inr a, w') ->
  exists E, upload_entry e f u = Some E /\
    (w !! TTL_FILENAME = None \/ exists m, w !! TTL_FILENAME = Some (File (FTTL m))) /\
    w' = <[TTL_FILENAME := File (FTTL (<[filename f := x]> (index_or_empty w)))]>
           (<[filename f := E]> w).
Proof.
  intros Hne Hb.
  destruct (upload_entry e f u) as [E|] eqn:HE.
  2: { unfold upload_body in Hb. rewrite bind_path_exists, upload_remove_step in Hb.
       destruct (upload_step_fail e r f u (delete (filename f) w) HE) as [ex Hex].
       unfold bind at 1 in Hb. rewrite Hex in Hb. discriminate. }
  assert (Hidx : w !! TTL_FILENAME = None \/ exists m, w !! TTL_FILENAME = Some (File (FTTL m))).
  { destruct (w !! TTL_FILENAME) as [[[d|m]|l]|] eqn:Ht; eauto; exfalso;
      unfold upload_body in Hb; rewrite bind_path_exists, upload_remove_step in Hb;
      unfold bind at 1 in Hb; rewrite (upload_step_ok e r f u _ E HE) in Hb by apply lookup_delete_eq;
      rewrite bind_path_exists, lookup_insert_ne, lookup_delete_ne, Ht in Hb by congruence;
      rewrite bool_decide_true in Hb by eauto;
      unfold bind, load_ttl in Hb; rewrite lookup_insert_ne, lookup_delete_ne, Ht in Hb by congruence;
      discriminate. }
  exists E. split; [reflexivity|]. split; [exact Hidx|].
  rewrite (upload_body_run e r f u x w E Hne HE Hidx) in Hb. congruence.
Qed.


(** X2: an upload without overwrite to a name that exists in an existing
    repository answers 409 and changes nothing (no transaction). *)
Theorem upload_conflict e r f u t st :
  filename f <> TTL_FILENAME -> is_Some (repos st !! r) ->
  file_exists st r (filename f) = true ->
  upload e r f u false t st =
    (inl (HTTPException 409 ("File " +:+ filename f +:+ " already exists")), st).
Proof.
  intros Hne HR Hf. unfold upload.
  rewrite in_blacklist_false by exact Hne. rewrite bool_decide_true by exact HR.
  simpl. rewrite Hf. reflexivity.
Qed.

(** X3: on a repository that does not exist, upload, update_ttl, delete,
    download and list_files answer 404 (for a name other than ttl.json) and
    change nothing. *)
Theorem missing_repo_not_found e r n f u ov t st :
  repos st !! r = None -> n <> TTL_FILENAME -> filename f <> TTL_FILENAME ->
  upload e r f u ov t st = (inl (HTTPException 404 ("Repo " +:+ r +:+ " does not exist")), st) /\
  update_ttl e r n t st =
    (inl (HTTPException 404 ("File " +:+ n +:+ " does not exist in repo " +:+ r)), st) /\
  delete_artifact e r n st =
    (inl (HTTPException 404 ("File " +:+ n +:+ " does not exist in repo " +:+ r)), st) /\
  download r n st = inl (HTTPException 404 ("File " +:+ n +:+ " does not exist in repo " +:+ r)) /\
  list_files r st = inl (HTTPException 404 ("Repo " +:+ r +:+ " does not exist")).
Proof.
  intros HR Hn Hf.
  assert (Hfe : file_exists st r n = false) by (unfold file_exists; rewrite HR; reflexivity).
  unfold upload, update_ttl, delete_artifact, download, list_files.
  rewrite !in_blacklist_false by assumption. rewrite Hfe, HR. simpl.
  repeat split.
Qed.


(** X5: a successful delete publishes the tree without the target and
    with the target's index entry removed, and answers target_name. *)
Theorem delete_publishes e r n st R m x :
  begin_ok e = true -> publish_ok e = true -> notify_ok e = true ->
  repos st !! r = Some R -> work R = None -> n <> TTL_FILENAME ->
  is_Some (pub R !! n) -> pub R !! TTL_FILENAME = Some (File (FTTL m)) -> m !! n = Some x ->
  delete_artifact e r n st =
    (inr [("target_name", JStr n)],
     mkState (<[r := mkRepo (<[TTL_FILENAME := File (FTTL (delete n m))]> (delete n (pub R))) None]> (repos st))
             (log st ++ [(Begin, r); (Publish, r); (Notify, r)])).
Proof.
  intros HB HP HN HR HW Hne Hn Hm Hx. unfold delete_artifact.
  rewrite in_blacklist_false by exact Hne. rewrite (file_exists_true st r n R HR HW Hn). simpl.
  rewrite (transact_succeeds e r _ _ st R tt
             (<[TTL_FILENAME := File (FTTL (delete n m))]> (delete n (pub R))) HR HW HB HP HN).
  - reflexivity.
  - unfold delete_body. rewrite bind_remove_target by exact Hn.
    unfold bind, load_ttl, write_file. rewrite lookup_delete_ne, Hm, Hx by congruence.
    rewrite lookup_delete_ne, Hm by congruence. reflexivity.
Qed.


(** A successful upload: the repository, its new published tree, and the
    entry written. *)
Lemma upload_success e r f u ov t st resp st' :
  upload e r f u ov t st = (inr resp, st') ->
  filename f <> TTL_FILENAME /\
  exists R E, repos st !! r = Some R /\ work R = None /\ upload_entry e f u = Some E /\
    repos st' = <[r := mkRepo (<[TTL_FILENAME := File (FTTL (<[filename f := now e + t]> (index_or_empty (pub R))))]>
                                 (<[filename f := E]> (pub R))) None]> (repos st).
Proof.
  intros Hrun. unfold upload in Hrun.
  destruct (in_blacklist (filename f)) eqn:Hbl; [inversion Hrun|].
  apply in_blacklist_neq in Hbl. split; [exact Hbl|].
  destruct (negb _); [inversion Hrun|].
  destruct (negb ov && _); [inversion Hrun|].
  destruct (transact _ _ _ _ _) as [[er|a] st1] eqn:HT; inversion Hrun; subst; clear Hrun.
  apply transact_ok in HT as (R & w' & HR & HW & Hb & Hrep).
  apply upload_body_inv in Hb as (E & HE & _ & ->); [|exact Hbl].
  exists R, E. auto.
Qed.

(** X7: after a successful upload without unpack, download of the name
    returns the uploaded bytes. *)
Theorem upload_then_download e r f ov t st resp st' :
  upload e r f false ov t st = (inr resp, st') ->
  download r (filename f) st' = inr (File (FData (data f))).
Proof.
  intros Hrun. apply upload_success in Hrun as (Hne & R & E & HR & HW & HE & Hrep).
  unfold upload_entry in HE. injection HE as <-.
  unfold download, view. rewrite Hrep, lookup_insert_eq. simpl.
  rewrite lookup_insert_ne, lookup_insert_eq by congruence. reflexivity.
Qed.

(** X8: after a successful upload with unpack, the name is the directory
    docker_unpack created (download's existence check finds it), and
    list_files, which keeps regular files only, does not list it while it
    lists ttl.json. *)
Theorem unpacked_upload_not_listed e r f ov t st resp st' ls :
  unpack_result e = inr ls ->
  upload e r f true ov t st = (inr resp, st') ->
  download r (filename f) st' = inr (Dir ls) /\
  exists l, list_files r st' = inr [("files", JList l)] /\ (filename f ∉ l) /\ (TTL_FILENAME ∈ l).
Proof.
  intros Hu Hrun. apply upload_success in Hrun as (Hne & R & E & HR & HW & HE & Hrep).
  unfold upload_entry in HE. rewrite Hu in HE. injection HE as <-.
  set (w' := <[TTL_FILENAME := File (FTTL (<[filename f := now e + t]> (index_or_empty (pub R))))]>
               (<[filename f := Dir ls]> (pub R))).
  assert (Hn : w' !! filename f = Some (Dir ls))
    by (unfold w'; rewrite lookup_insert_ne, lookup_insert_eq by congruence; reflexivity).
  split.
  - unfold download, view. rewrite Hrep, lookup_insert_eq. simpl. fold w'. rewrite Hn. reflexivity.
  - unfold list_files, view. rewrite Hrep, lookup_insert_eq. simpl. fold w'.
    eexists. split; [reflexivity|]. split.
    + rewrite list_elem_of_fmap. intros [[k v] [Hk Hin]]. simpl in Hk. subst k.
      apply list_elem_of_filter in Hin as [Hv Hin]. apply elem_of_map_to_list in Hin.
      rewrite Hn in Hin. injection Hin as <-. discriminate.
    + rewrite list_elem_of_fmap.
      exists (TTL_FILENAME, File (FTTL (<[filename f := now e + t]> (index_or_empty (pub R))))).
      split; [reflexivity|]. apply list_elem_of_filter. split; [reflexivity|].
      apply elem_of_map_to_list. unfold w'. apply lookup_insert_eq.
Qed.

(** X9: after a successful delete, the name no longer exists in the
    repository (download answers 404, later existence checks fail) and has
    no index entry. *)
Theorem delete_then_absent e r n st resp st' :
  delete_artifact e r n st = (inr resp, st') ->
  download r n st' = inl (HTTPException 404 ("File " +:+ n +:+ " does not exist in repo " +:+ r)) /\
  file_exists st' r n = false /\ (n ∉ index_names st' r).
Proof.
  intros Hrun. unfold delete_artifact in Hrun.
  destruct (in_blacklist n) eqn:Hbl; [inversion Hrun|].
  apply in_blacklist_neq in Hbl.
  destruct (negb _); [inversion Hrun|].
  destruct (transact _ _ _ _ _) as [[er|a] st1] eqn:HT; inversion Hrun; subst; clear Hrun.
  apply transact_ok in HT as (R & w' & HR & HW & Hb & Hrep).
  unfold delete_body, bind at 1 in Hb.
  destruct (remove_target r n (pub R)) as [[ex|[]] w1] eqn:Hrm; [discriminate|].
  assert (Hw1 : w1 = delete n (pub R)).
  { destruct (pub R !! n) eqn:Hn.
    - rewrite remove_target_ok in Hrm by (rewrite Hn; eauto). congruence.
    - unfold remove_target, bind, is_dir, unlink in Hrm. rewrite Hn in Hrm. cbv beta iota in Hrm. rewrite Hn in Hrm. discriminate. }
  subst w1. unfold bind, load_ttl in Hb. rewrite lookup_delete_ne in Hb by congruence.
  destruct (pub R !! TTL_FILENAME) as [[[d|m]|l]|] eqn:Ht; try discriminate.
  destruct (m !! n) as [x|] eqn:Hx; [|discriminate].
  unfold write_file in Hb. rewrite lookup_delete_ne, Ht in Hb by congruence.
  cbv beta iota in Hb. injection Hb as Hw'. subst w'.
  assert (Hgone : <[TTL_FILENAME := File (FTTL (delete n m))]> (delete n (pub R)) !! n = None)
    by (rewrite lookup_insert_ne, lookup_delete_eq by congruence; reflexivity).
  split; [|split].
  - unfold download, view. rewrite Hrep, lookup_insert_eq. simpl. rewrite Hgone. reflexivity.
  - unfold file_exists, view. rewrite Hrep, lookup_insert_eq. simpl. rewrite Hgone. reflexivity.
  - unfold index_names. rewrite Hrep, lookup_insert_eq. simpl. rewrite lookup_insert_eq.
    rewrite dom_delete_L. set_solver.
Qed.

Lemma delete_keys_expired_unexpired t (m : gmap string Z) k x :
  delete_keys (expired_keys t (map_to_list m)) m !! k = Some x -> m !! k = Some x /\ t <= x.
Proof.
  intros Hx. destruct (decide (k ∈ expired_keys t (map_to_list m))) as [HkE|HkE].
  - rewrite lookup_delete_keys_in in Hx by exact HkE. discriminate.
  - rewrite lookup_delete_keys_notin in Hx by exact HkE. split; [exact Hx|].
    destruct (Z_lt_le_dec x t) as [Hlt|Hle]; [|exact Hle].
    exfalso. apply HkE, elem_of_expired_keys. eauto.
Qed.

Lemma expired_keys_swept t (m : gmap string Z) :
  expired_keys t (map_to_list (delete_keys (expired_keys t (map_to_list m)) m)) = [].
Proof.
  destruct (expired_keys t (map_to_list (delete_keys (expired_keys t (map_to_list m)) m)))
    as [|k ks] eqn:Hl; [reflexivity|].
  exfalso. assert (Hk : k ∈ k :: ks) by left. rewrite <- Hl in Hk.
  apply elem_of_expired_keys in Hk as [x [Hx Hlt]].
  apply delete_keys_expired_unexpired in Hx as [_ Hle]. lia.
Qed.

Lemma count_present_absent t w (l : list (string * Z)) :
  (count_present t w l + count_absent t w l)%nat = length (expired_keys t l).
Proof.
  unfold count_present, count_absent, expired_keys. rewrite length_fmap.
  induction l as [|[k x] l IH]; [reflexivity|].
  rewrite !filter_cons. cbn [fst snd].
  destruct (decide (x < t)) as [Hx|Hx].
  - destruct (decide (is_Some (w !! k))) as [Hk|Hk].
    + rewrite decide_True by tauto. rewrite decide_False by tauto. simpl. lia.
    + rewrite decide_False by tauto. rewrite decide_True by tauto. simpl. lia.
  - rewrite !decide_False by tauto. exact IH.
Qed.

(** X10: in a successful sweep, cleaned + errors is the number of index
    entries whose expires_at is strictly before now. *)
Theorem clean_counts_expired e r st resp st' :
  file_exists st r TTL_FILENAME = true ->
  clean e r st = (inr resp, st') ->
  exists R m cleaned errors, repos st !! r = Some R /\
    pub R !! TTL_FILENAME = Some (File (FTTL m)) /\
    resp = [("message", JStr (clean_message r cleaned errors))] /\
    (cleaned + errors)%nat = length (filter (fun kv => kv.2 < now e) (map_to_list m)).
Proof.
  intros Hf Hrun. apply (clean_success e r st resp st' Hf) in Hrun as (R & m & HR & _ & Hm & Hresp & _).
  exists R, m, (count_present (now e) (pub R) (map_to_list m)),
    (count_absent (now e) (pub R) (map_to_list m)).
  split; [exact HR|]. split; [exact Hm|]. split; [exact Hresp|].
  rewrite count_present_absent. unfold expired_keys. apply length_fmap.
Qed.

(** X11: a second sweep at the same time after a successful sweep removes
    nothing: it reports 0 cleaned and 0 errors and republishes the same
    repositories. *)
Theorem clean_twice_noop e r st resp st' :
  begin_ok e = true -> publish_ok e = true -> notify_ok e = true ->
  file_exists st r TTL_FILENAME = true ->
  clean e r st = (inr resp, st') ->
  clean e r st' =
    (inr [("message", JStr (clean_message r 0 0))],
     mkState (repos st') (log st' ++ [(Begin, r); (Publish, r); (Notify, r)])).
Proof.
  intros HB HP HN Hf Hrun.
  apply (clean_success e r st resp st' Hf) in Hrun as (R & m & HR & HW & Hm & _ & Hrep).
  set (m' := delete_keys (expired_keys (now e) (map_to_list m)) m) in *.
  set (w' := <[TTL_FILENAME := File (FTTL m')]> (delete_keys (expired_keys (now e) (map_to_list m)) (pub R))) in *.
  assert (HR' : repos st' !! r = Some (mkRepo w' None)) by (rewrite Hrep; apply lookup_insert_eq).
  assert (Hw' : w' !! TTL_FILENAME = Some (File (FTTL m'))) by apply lookup_insert_eq.
  assert (Hf' : file_exists st' r TTL_FILENAME = true)
    by (apply (file_exists_true st' r TTL_FILENAME (mkRepo w' None) HR' eq_refl); simpl; rewrite Hw'; eauto).
  assert (Hsw : expired_keys (now e) (map_to_list m') = []) by apply expired_keys_swept.
  assert (Hc := count_present_absent (now e) w' (map_to_list m')).
  rewrite Hsw in Hc. simpl in Hc.
  assert (H0p : count_present (now e) w' (map_to_list m') = 0%nat) by lia.
  assert (H0a : count_absent (now e) w' (map_to_list m') = 0%nat) by lia.
  unfold clean. rewrite Hf'. simpl.
  rewrite (transact_succeeds e r _ _ st' (mkRepo w' None) (0%nat, 0%nat) w' HR' eq_refl HB HP HN).
  - rewrite insert_id by exact HR'. reflexivity.
  - simpl. rewrite (clean_body_ok e r w' m' Hw'), Hsw. simpl.
    rewrite H0p, H0a, insert_id by exact Hw'. reflexivity.
Qed.

(** X12: after a successful upload at time t1 with ttl_s and a successful
    sweep at time t2, the artifact is still published exactly when
    t2 <= t1 + ttl_s. *)
Theorem upload_then_clean e1 e2 r f u ov t st resp1 st1 resp2 st2 :
  upload e1 r f u ov t st = (inr resp1, st1) ->
  clean e2 r st1 = (inr resp2, st2) ->
  exists R2, repos st2 !! r = Some R2 /\
    (is_Some (pub R2 !! filename f) <-> now e2 <= now e1 + t).
Proof.
  intros Hup Hcl. apply upload_success in Hup as (Hne & R & E & HR & HW & HE & Hrep).
  set (m1 := <[filename f := now e1 + t]> (index_or_empty (pub R))) in *.
  set (w1 := <[TTL_FILENAME := File (FTTL m1)]> (<[filename f := E]> (pub R))) in *.
  assert (HR1 : repos st1 !! r = Some (mkRepo w1 None)) by (rewrite Hrep; apply lookup_insert_eq).
  assert (Hw1 : w1 !! TTL_FILENAME = Some (File (FTTL m1))) by apply lookup_insert_eq.
  assert (Hf : file_exists st1 r TTL_FILENAME = true)
    by (apply (file_exists_true st1 r TTL_FILENAME (mkRepo w1 None) HR1 eq_refl); simpl; rewrite Hw1; eauto).
  apply (clean_success e2 r st1 resp2 st2 Hf) in Hcl as (R' & m & HR' & _ & Hm & _ & Hrep2).
  rewrite HR1 in HR'. injection HR' as <-. simpl in Hm. rewrite Hw1 in Hm. injection Hm as <-.
  eexists. rewrite Hrep2, lookup_insert_eq. split; [reflexivity|]. simpl.
  rewrite lookup_insert_ne by congruence.
  destruct (decide (filename f ∈ expired_keys (now e2) (map_to_list m1))) as [Hin|Hin].
  - rewrite lookup_delete_keys_in by exact Hin.
    apply elem_of_expired_keys in Hin as [x [Hx Hlt]]. unfold m1 in Hx.
    rewrite lookup_insert_eq in Hx. injection Hx as <-.
    split; [intros [? ?]; discriminate | lia].
  - rewrite lookup_delete_keys_notin by exact Hin.
    unfold w1. rewrite lookup_insert_ne, lookup_insert_eq by congruence.
    split; [intros _|eauto].
    destruct (Z_lt_le_dec (now e1 + t) (now e2)) as [Hlt|Hle]; [|exact Hle].
    exfalso. apply Hin, elem_of_expired_keys. exists (now e1 + t).
    split; [apply lookup_insert_eq|exact Hlt].
Qed.

Lemma clean_other e r' st res st' r :
  clean e r' st = (res, st') -> r' <> r -> repos st' !! r = repos st !! r.
Proof.
  intros Hc Hne. pose proof (run_op_other e (OpClean r') st r Hne) as H.
  simpl in H. rewrite Hc in H. exact H.
Qed.

Lemma housekeeping_loop_other items : forall st res st' r,
  housekeeping_loop items st = (res, st') -> r ∉ items.*2 ->
  repos st' !! r = repos st !! r.
Proof.
  induction items as [|[e r'] items IH]; intros st res st' r Hl Hr; simpl in Hl.
  - injection Hl as _ <-. reflexivity.
  - rewrite fmap_cons, elem_of_cons in Hr. simpl in Hr.
    destruct (clean e r' st) as [[er|a] st1] eqn:Hc.
    + injection Hl as _ <-. apply (clean_other e r' st _ _ r Hc). intros ->. tauto.
    + rewrite (IH st1 res st' r Hl) by tauto.
      apply (clean_other e r' st _ _ r Hc). intros ->. tauto.
Qed.

(** After a successful clean of r, the visible index of r holds no entry
    expired at the clean's time. *)
Lemma clean_leaves_unexpired e r st resp st' :
  clean e r st = (inr resp, st') ->
  match repos st' !! r with
  | Some R => view R !! TTL_FILENAME = None \/
              exists m, view R !! TTL_FILENAME = Some (File (FTTL m)) /\
                        forall k x, m !! k = Some x -> now e <= x
  | None => True
  end.
Proof.
  intros Hrun. destruct (file_exists st r TTL_FILENAME) eqn:Hf.
  - apply (clean_success e r st resp st' Hf) in Hrun as (R & m & _ & _ & _ & _ & Hrep).
    rewrite Hrep, lookup_insert_eq. right. unfold view. simpl.
    eexists. split; [apply lookup_insert_eq|].
    intros k x Hx. apply delete_keys_expired_unexpired in Hx as [_ Hle]. exact Hle.
  - unfold clean in Hrun. rewrite Hf in Hrun. simpl in Hrun. injection Hrun as _ <-.
    unfold file_exists in Hf. destruct (repos st !! r) as [R|]; [|exact I].
    left. apply bool_decide_eq_false in Hf. destruct (view R !! TTL_FILENAME); [|reflexivity].
    exfalso. apply Hf. eauto.
Qed.

(** X13: after a successful housekeeping over distinct repositories, the
    visible index of each repository it visited has no entry whose
    expires_at is strictly before the time of that repository's clean. *)
Theorem housekeeping_sweeps_all items gc_ok gc_time_s hk_time_s st resp st' :
  NoDup items.*2 ->
  housekeeping items gc_ok gc_time_s hk_time_s st = (inr resp, st') ->
  forall e r, (e, r) ∈ items ->
  match repos st' !! r with
  | Some R => view R !! TTL_FILENAME = None \/
              exists m, view R !! TTL_FILENAME = Some (File (FTTL m)) /\
                        forall k x, m !! k = Some x -> now e <= x
  | None => True
  end.
Proof.
  intros Hnd Hhk. unfold housekeeping in Hhk.
  destruct (housekeeping_loop items st) as [[er|[]] st1] eqn:Hl; [discriminate|].
  destruct (gc gc_ok gc_time_s) as [g|g]; [discriminate|]. injection Hhk as _ <-. clear g.
  clear resp. revert st Hl.
  induction items as [|[e0 r0] items IH]; intros st Hl e r Hin.
  - apply not_elem_of_nil in Hin. contradiction.
  - rewrite fmap_cons in Hnd. apply NoDup_cons in Hnd as [Hr0 Hnd]. simpl in Hr0.
    simpl in Hl. destruct (clean e0 r0 st) as [[er|a] st2] eqn:Hc; [discriminate|].
    apply elem_of_cons in Hin as [Heq|Hin].
    + injection Heq as He0 Hr0e. rewrite <- He0, <- Hr0e in *.
      rewrite (housekeeping_loop_other items st2 _ st1 r Hl Hr0).
      exact (clean_leaves_unexpired e r st a st2 Hc).
    + exact (IH Hnd st2 Hl e r Hin).
Qed.

(** X14: housekeeping stops at the first clean that raises: it answers
    that error, cleans none of the later repositories and does not run gc. *)
Theorem housekeeping_stops_at_failure pre e r post gc_ok gc_time_s hk_time_s st st1 er st2 :
  housekeeping_loop pre st = (inr tt, st1) ->
  clean e r st1 = (inl er, st2) ->
  housekeeping (pre ++ (e, r) :: post) gc_ok gc_time_s hk_time_s st = (inl (HKError er), st2).
Proof.
  intros Hpre Hc. unfold housekeeping.
  assert (Hl : housekeeping_loop (pre ++ (e, r) :: post) st = (inl er, st2)).
  { revert st Hpre. induction pre as [|[e0 r0] pre IH]; intros st Hpre; simpl in Hpre |- *.
    - injection Hpre as <-. rewrite Hc. reflexivity.
    - destruct (clean e0 r0 st) as [[er0|a] st0]; [discriminate|]. apply IH, Hpre. }
  rewrite Hl. reflexivity.
Qed.


Lemma upload_conflict_witness :
  upload (env_ok 100) "r" file_a false false 10 st_a =
    (inl (HTTPException 409 ("File " +:+ filename file_a +:+ " already exists")), st_a).
Proof. apply (upload_conflict (env_ok 100) "r" file_a false 10 st_a); settle. Defined.

Lemma missing_repo_not_found_witness :
  upload (env_ok 100) "s" file_a false false 10 st_fresh = (inl (HTTPException 404 ("Repo " +:+ "s" +:+ " does not exist")), st_fresh) /\
  update_ttl (env_ok 100) "s" "a" 10 st_fresh =
    (inl (HTTPException 404 ("File " +:+ "a" +:+ " does not exist in repo " +:+ "s")), st_fresh) /\
  delete_artifact (env_ok 100) "s" "a" st_fresh =
    (inl (HTTPException 404 ("File " +:+ "a" +:+ " does not exist in repo " +:+ "s")), st_fresh) /\
  download "s" "a" st_fresh = inl (HTTPException 404 ("File " +:+ "a" +:+ " does not exist in repo " +:+ "s")) /\
  list_files "s" st_fresh = inl (HTTPException 404 ("Repo " +:+ "s" +:+ " does not exist")).
Proof. apply (missing_repo_not_found (env_ok 100) "s" "a" file_a false false 10 st_fresh); settle. Defined.


Lemma delete_publishes_witness :
  delete_artifact (env_ok 100) "r" "a" st_a =
    (inr [("target_name", JStr "a")],
     mkState (<[ "r" := mkRepo (<[TTL_FILENAME := File (FTTL (delete "a" index_a))]> (delete "a" (pub R_a))) None]> (repos st_a))
             (log st_a ++ [(Begin, "r"); (Publish, "r"); (Notify, "r")])).
Proof. apply (delete_publishes (env_ok 100) "r" "a" st_a R_a index_a 110); settle. Defined.


Lemma upload_then_download_witness :
  download "r" (filename file_a) (upload (env_ok 100) "r" file_a false false 10 st_fresh).2 =
    inr (File (FData (data file_a))).
Proof.
  apply (upload_then_download (env_ok 100) "r" file_a false 10 st_fresh
           [("filename", JStr "a"); ("content_type", JStr "text/plain"); ("expires_at", JNum 110);
            ("upload_time_s", JNum 1); ("publish_time_s", JNum 2)]); settle.
Defined.

Lemma unpacked_upload_not_listed_witness :
  download "r" (filename file_a) (upload (env_ok 100) "r" file_a true false 10 st_fresh).2 = inr (Dir ["layer.tar"]) /\
  exists l, list_files "r" (upload (env_ok 100) "r" file_a true false 10 st_fresh).2 = inr [("files", JList l)] /\
    (filename file_a ∉ l) /\ (TTL_FILENAME ∈ l).
Proof.
  apply (unpacked_upload_not_listed (env_ok 100) "r" file_a false 10 st_fresh
           [("filename", JStr "a"); ("content_type", JStr "text/plain"); ("expires_at", JNum 110);
            ("upload_time_s", JNum 1); ("publish_time_s", JNum 2)]); settle.
Defined.

Lemma delete_then_absent_witness :
  download "r" "a" (delete_artifact (env_ok 100) "r" "a" st_a).2 =
    inl (HTTPException 404 ("File " +:+ "a" +:+ " does not exist in repo " +:+ "r")) /\
  file_exists (delete_artifact (env_ok 100) "r" "a" st_a).2 "r" "a" = false /\
  ("a" ∉ index_names (delete_artifact (env_ok 100) "r" "a" st_a).2 "r").
Proof. apply (delete_then_absent (env_ok 100) "r" "a" st_a [("target_name", JStr "a")]); settle. Defined.

Lemma clean_counts_expired_witness :
  exists R m cleaned errors, repos st_stale !! "r" = Some R /\
    pub R !! TTL_FILENAME = Some (File (FTTL m)) /\
    [("message", JStr "Cleaned up 0 expired files in repo: r. Errors: 1")] = [("message", JStr (clean_message "r" cleaned errors))] /\
    (cleaned + errors)%nat = length (filter (fun kv => kv.2 < now (env_ok 1000)) (map_to_list m)).
Proof.
  apply (clean_counts_expired (env_ok 1000) "r" st_stale
           [("message", JStr "Cleaned up 0 expired files in repo: r. Errors: 1")]
           (clean (env_ok 1000) "r" st_stale).2); settle.
Defined.

Lemma clean_twice_noop_witness :
  clean (env_ok 1000) "r" (clean (env_ok 1000) "r" st_a).2 =
    (inr [("message", JStr (clean_message "r" 0 0))],
     mkState (repos (clean (env_ok 1000) "r" st_a).2)
             (log (clean (env_ok 1000) "r" st_a).2 ++ [(Begin, "r"); (Publish, "r"); (Notify, "r")])).
Proof.
  apply (clean_twice_noop (env_ok 1000) "r" st_a
           [("message", JStr "Cleaned up 1 expired files in repo: r. Errors: 0")]); settle.
Defined.

Lemma upload_then_clean_witness :
  exists R2, repos (clean (env_ok 200) "r" (upload (env_ok 100) "r" file_a false false 10 st_fresh).2).2 !! "r" = Some R2 /\
    (is_Some (pub R2 !! filename file_a) <-> now (env_ok 200) <= now (env_ok 100) + 10).
Proof.
  apply (upload_then_clean (env_ok 100) (env_ok 200) "r" file_a false false 10 st_fresh
           [("filename", JStr "a"); ("content_type", JStr "text/plain"); ("expires_at", JNum 110);
            ("upload_time_s", JNum 1); ("publish_time_s", JNum 2)]
           (upload (env_ok 100) "r" file_a false false 10 st_fresh).2
           [("message", JStr "Cleaned up 1 expired files in repo: r. Errors: 0")]); settle.
Defined.

Lemma housekeeping_sweeps_all_witness :
  match repos (housekeeping [(env_ok 1000, "r")] true 3 4 st_a).2 !! "r" with
  | Some R => view R !! TTL_FILENAME = None \/
              exists m, view R !! TTL_FILENAME = Some (File (FTTL m)) /\
                        forall k x, m !! k = Some x -> now (env_ok 1000) <= x
  | None => True
  end.
Proof.
  refine (housekeeping_sweeps_all [(env_ok 1000, "r")] true 3 4 st_a
            [("message", JStr "Housekeeping completed"); ("housekeeping_time_s", JNum 4)]
            (housekeeping [(env_ok 1000, "r")] true 3 4 st_a).2 _ _ (env_ok 1000) "r" _).
  - apply NoDup_singleton.
  - settle.
  - constructor.
Defined.

Lemma housekeeping_stops_at_failure_witness :
  housekeeping ([(env_ok 1, "x")] ++ (env_ok 100, "r") :: [(env_ok 1, "r")]) true 3 4 st_corrupt =
    (inl (HKError (HTTPException 500 ("Failed to clean up expired files: " +:+ str_of_exn JSONDecodeError))),
     (clean (env_ok 100) "r" st_corrupt).2).
Proof.
  apply (housekeeping_stops_at_failure [(env_ok 1, "x")] (env_ok 100) "r" [(env_ok 1, "r")] true 3 4
           st_corrupt st_corrupt); settle.
Defined.
